(** * AI Website Analyzer: the analysis pipeline of [src/App.tsx]

    A shallow embedding of the [App] component's logic: URL validation, the
    four-stage analysis run ([analyzeWebsite]), the history decode layer
    ([loadHistory]) and the score aggregation shown in the side bar.

    Conventions of the embedding.
    - A JavaScript [number] that the program treats as an integer (scores,
      the 0-100 detail figures, clock readings) is a [Z] where the program
      only copies, compares or prints it.  Where the program computes with
      numbers (the overall score), the computation is done as the source
      does it, in IEEE 754 binary64 arithmetic ([SpecFloat]), on the
      doubles that the integers denote.  The performance timings are
      measurements in seconds and are kept as rationals ([Q]); the program
      only copies them.
    - A JavaScript string is a [string], one character per code unit, over
      the Latin-1 range.
    - An [await]ed promise either resolves with a value or rejects; a
      rejection and a [TypeError] both unwind to the enclosing [catch].
    - React state is a record threaded through the code; a [setX] call is a
      record update.  Effects outside React (toasts, the console, the calls
      made to the external services) are appended to a log. *)

From Stdlib Require Import ZArith QArith Qround List String Ascii Bool Lia Lqa.
From Stdlib Require Import DecimalString DecimalZ DecimalPos SpecFloat.
From Ceres Require Import Ceres.
Import ListNotations.
Local Open Scope string_scope.
Local Open Scope Z_scope.

(* ===================================================================== *)
(** ** The report schema ([interface AnalysisResult], lines 31-83)        *)
(* ===================================================================== *)

Module Performance.
Record metrics_t := {
    loadTime : Q;
    firstContentfulPaint : Q;
    largestContentfulPaint : Q;
    cumulativeLayoutShift : Q }.
Record t := {
    score : Z;
    metrics : metrics_t;
    recommendations : list string }.
End Performance.

Module Seo.
Inductive type_t := error | warning | info.
Inductive impact_t := high | medium | low.
Record issue := { type : type_t; message : string; impact : impact_t }.
Record t := {
    score : Z;
    issues : list issue;
    recommendations : list string }.
End Seo.

Module Accessibility.
Inductive severity_t := critical | serious | moderate | minor.
Record violation := {
    severity : severity_t;
    description : string;
    element : string }.
Record t := {
    score : Z;
    violations : list violation;
    recommendations : list string }.
End Accessibility.

Module Design.
Record analysis_t := {
    colorContrast : Z;
    typography : Z;
    layout : Z;
    responsiveness : Z }.
Record t := {
    score : Z;
    analysis : analysis_t;
    recommendations : list string }.
End Design.

Module Ux.
Record metrics_t := {
    navigationClarity : Z;
    contentReadability : Z;
    mobileUsability : Z;
    interactionDesign : Z }.
Record t := {
    score : Z;
    metrics : metrics_t;
    recommendations : list string }.
End Ux.

(** A value of type [AnalysisResult] as it exists at run time.  The
    interface declares the five categories as always present, but the
    objects are built by spreading what the analyzer or [JSON.parse]
    returned, so a category can be missing ([undefined], here [None]).
    Reading [.score] of a missing category is the [TypeError] of the
    source. *)
Module AnalysisResult.
Record t := {
    id : string;
    url : string;
    timestamp : Z;
    performance : option Performance.t;
    seo : option Seo.t;
    accessibility : option Accessibility.t;
    design : option Design.t;
    ux : option Ux.t }.
End AnalysisResult.

(** The object that is spread into a report: the [analysis] returned by
    [generateObject] (line 218) and the [analysisData] returned by
    [JSON.parse] (line 108).  Every property is optional.  A parsed value
    that is not an object (a number, [null], ...) spreads no property the
    program reads, and is the record of [None]s. *)
Module AnalysisData.
Record t := {
    id : option string;
    url : option string;
    timestamp : option Z;
    performance : option Performance.t;
    seo : option Seo.t;
    accessibility : option Accessibility.t;
    design : option Design.t;
    ux : option Ux.t }.
End AnalysisData.

(** A row of the [websiteAnalyses] table, with the columns written by
    [create] (lines 323-335).  A denormalized score column can be empty in
    a row that [create] of this program did not write ([None]).
    [createdAt] is the instant read by [new Date()]; the source stores its
    ISO-8601 text, which orders as the instants do. *)
Module WebsiteAnalysis.
Record t := {
    id : string;
    userId : string;
    url : string;
    timestamp : Z;
    performanceScore : option Z;
    seoScore : option Z;
    accessibilityScore : option Z;
    designScore : option Z;
    uxScore : option Z;
    analysisData : string;
    createdAt : Z }.
End WebsiteAnalysis.

Module User.
Record t := { id : string; email : string }.
End User.

Record Metadata := { title : option string; description : option string }.
Record ScrapeResult := { markdown : string; metadata : Metadata }.

(* ===================================================================== *)
(** ** JavaScript built-ins used by the component                         *)
(* ===================================================================== *)

(** [WhiteSpace] and [LineTerminator] code units below 256. *)
Definition isWhiteSpace (c : ascii) : bool :=
  let n := nat_of_ascii c in
  ((9 <=? n) && (n <=? 13) || (n =? 32) || (n =? 160))%nat.

Fixpoint dropWhile (f : ascii -> bool) (s : string) : string :=
  match s with
  | String c s' => if f c then dropWhile f s' else s
  | EmptyString => EmptyString
  end.

Fixpoint dropWhileEnd (f : ascii -> bool) (s : string) : string :=
  match s with
  | EmptyString => EmptyString
  | String c s' =>
      match dropWhileEnd f s' with
      | EmptyString => if f c then EmptyString else String c EmptyString
      | rest => String c rest
      end
  end.

Definition trimStart (s : string) : string := dropWhile isWhiteSpace s.

Definition trimEnd (s : string) : string := dropWhileEnd isWhiteSpace s.

(** [String.prototype.trim]. *)
Definition trim (s : string) : string := trimEnd (trimStart s).

(** [String.prototype.startsWith]. *)
Definition startsWith (s searchString : string) : bool := String.prefix searchString s.

(** [s.substring(0, n)]. *)
Definition substring0 (n : nat) (s : string) : string := String.substring 0 n s.

(** Truthiness of a string: the empty string is falsy. *)
Definition truthy (s : string) : bool := negb (String.eqb s "").

(** [a || b] on an optional string: [undefined] and [""] are falsy. *)
Definition orElse (a : option string) (b : string) : string :=
  match a with
  | Some s => if truthy s then s else b
  | None => b
  end.

(** [n || 0] on an optional number: [undefined], [null] and [0] are falsy. *)
Definition orZero (n : option Z) : Z :=
  match n with
  | Some v => if v =? 0 then 0 else v
  | None => 0
  end.

(** [`${n}`] for an integer [n]: its decimal numeral (the form that
    JavaScript prints for integers below 10^21 in magnitude, which clock
    readings are). *)
Definition toString (n : Z) : string := NilZero.string_of_int (Z.to_int n).

(** A JavaScript number in arithmetic: an IEEE 754 binary64 value, with 53
    bits of precision and exponents below 1024.  The operations round to
    nearest, a tie going to the even mantissa, as [SpecFloat] defines
    them. *)
Definition double := spec_float.

(** The number that an integer literal denotes: the double nearest to [z]
    ([z] itself when its magnitude is at most 2^53). *)
Definition double_of_Z (z : Z) : double := binary_normalize 53 1024 z 0 false.

(** [x + y] and [x / y] on numbers. *)
Definition double_add (x y : double) : double := SFadd 53 1024 x y.
Definition double_div (x y : double) : double := SFdiv 53 1024 x y.

(** [Math.round(x)]: [x] itself when it is not finite or is an integer;
    otherwise the integer nearest to [x], a tie going towards +infinity,
    that is [floor (x + 1/2)] taken exactly; a result of zero keeps the
    sign of [x].  A finite double [m * 2^e] with [0 <= e] is an integer. *)
Definition Math_round (x : double) : double :=
  match x with
  | S754_finite s m e =>
      if 0 <=? e then x
      else
        let n := (2 * cond_Zopp s (Z.pos m) + 2 ^ (- e)) / 2 ^ (1 - e) in
        if n =? 0 then S754_zero s else double_of_Z n
  | _ => x
  end.

(** The services of the JavaScript platform that the component calls and
    that are taken as given: the URL parser behind [new URL(s)] (does [s]
    parse?), and the JSON codec. [JSON_parse] returns [None] where
    [JSON.parse] throws. *)
Record Platform := {
  URL_parses : string -> bool;
  JSON_stringify : AnalysisResult.t -> string;
  JSON_parse : string -> option AnalysisData.t }.

(* ===================================================================== *)
(** ** The record store                                                   *)
(* ===================================================================== *)

(** Modelled from the spec: the record store behind
    [blink.db.websiteAnalyses] is an external service whose code is not in
    the repository.  Following section 4.6 of the specification, [create]
    persists the row it is given, and [list] returns the rows of one user
    ordered by creation time, newest first, capped at the caller's limit. *)
Definition Store := list WebsiteAnalysis.t.

(** Modelled from the spec: [create] persists the row. *)
Definition db_create (s : Store) (row : WebsiteAnalysis.t) : Store := (s ++ [row])%list.

Fixpoint insert_desc (row : WebsiteAnalysis.t) (l : list WebsiteAnalysis.t)
  : list WebsiteAnalysis.t :=
  match l with
  | [] => [row]
  | x :: l' =>
      if WebsiteAnalysis.createdAt x <? WebsiteAnalysis.createdAt row
      then row :: l
      else x :: insert_desc row l'
  end.

Definition sort_desc (l : list WebsiteAnalysis.t) : list WebsiteAnalysis.t :=
  fold_right insert_desc [] l.

(** Modelled from the spec: [list] with [where: { userId }],
    [orderBy: { createdAt: 'desc' }] and [limit]. *)
Definition db_list (s : Store) (userId : string) (limit : nat) : list WebsiteAnalysis.t :=
  firstn limit
    (sort_desc (filter (fun row => String.eqb (WebsiteAnalysis.userId row) userId) s)).

(* ===================================================================== *)
(** ** Component state and effects                                        *)
(* ===================================================================== *)

Inductive Effect :=
| toast_error (message : string)
| toast_success (message : string)
| console_error (message : string)
| scrape_called (url : string)
| screenshot_called (url : string)
| generateObject_called (prompt : string)
| create_called (row : WebsiteAnalysis.t)
| list_called (userId : string).

(** The [useState] cells of [App] (lines 86-93), the store, and the log of
    effects, oldest first. *)
Record World := mkWorld {
  user : option User.t;
  url : string;
  analyzing : bool;
  progress : Z;
  currentStep : string;
  result : option AnalysisResult.t;
  history : list AnalysisResult.t;
  db : Store;
  log : list Effect }.

Definition setUrl (v : string) (w : World) : World :=
  mkWorld (user w) v (analyzing w) (progress w) (currentStep w) (result w)
          (history w) (db w) (log w).

Definition setAnalyzing (v : bool) (w : World) : World :=
  mkWorld (user w) (url w) v (progress w) (currentStep w) (result w)
          (history w) (db w) (log w).

Definition setProgress (v : Z) (w : World) : World :=
  mkWorld (user w) (url w) (analyzing w) v (currentStep w) (result w)
          (history w) (db w) (log w).

Definition setCurrentStep (v : string) (w : World) : World :=
  mkWorld (user w) (url w) (analyzing w) (progress w) v (result w)
          (history w) (db w) (log w).

Definition setResult (v : option AnalysisResult.t) (w : World) : World :=
  mkWorld (user w) (url w) (analyzing w) (progress w) (currentStep w) v
          (history w) (db w) (log w).

Definition setHistory (v : list AnalysisResult.t) (w : World) : World :=
  mkWorld (user w) (url w) (analyzing w) (progress w) (currentStep w) (result w)
          v (db w) (log w).

(** The store takes a row in. *)
Definition persist (row : WebsiteAnalysis.t) (w : World) : World :=
  mkWorld (user w) (url w) (analyzing w) (progress w) (currentStep w) (result w)
          (history w) (db_create (db w) row) (log w).

Definition emit (es : list Effect) (w : World) : World :=
  mkWorld (user w) (url w) (analyzing w) (progress w) (currentStep w) (result w)
          (history w) (db w) (log w ++ es)%list.

(* ===================================================================== *)
(** ** History decoding ([loadHistory], lines 95-136)                     *)
(* ===================================================================== *)

Definition orDefault {A : Type} (o : option A) (d : A) : A :=
  match o with Some v => v | None => d end.

(** [{ id: i, url: u, timestamp: t, ...data }]: the spread comes last, so a
    property of [data] replaces the one written before it.  Used at lines
    315-320 and 109-114. *)
Definition spread (i u : string) (t : Z) (data : AnalysisData.t) : AnalysisResult.t :=
  {| AnalysisResult.id := orDefault (AnalysisData.id data) i;
     AnalysisResult.url := orDefault (AnalysisData.url data) u;
     AnalysisResult.timestamp := orDefault (AnalysisData.timestamp data) t;
     AnalysisResult.performance := AnalysisData.performance data;
     AnalysisResult.seo := AnalysisData.seo data;
     AnalysisResult.accessibility := AnalysisData.accessibility data;
     AnalysisResult.design := AnalysisData.design data;
     AnalysisResult.ux := AnalysisData.ux data |}.

(** The fallback structure of lines 118-127. *)
Definition fallback (item : WebsiteAnalysis.t) : AnalysisResult.t :=
  {| AnalysisResult.id := WebsiteAnalysis.id item;
     AnalysisResult.url := WebsiteAnalysis.url item;
     AnalysisResult.timestamp := WebsiteAnalysis.timestamp item;
     AnalysisResult.performance := Some
       {| Performance.score := orZero (WebsiteAnalysis.performanceScore item);
          Performance.metrics :=
            {| Performance.loadTime := 0%Q;
               Performance.firstContentfulPaint := 0%Q;
               Performance.largestContentfulPaint := 0%Q;
               Performance.cumulativeLayoutShift := 0%Q |};
          Performance.recommendations := [] |};
     AnalysisResult.seo := Some
       {| Seo.score := orZero (WebsiteAnalysis.seoScore item);
          Seo.issues := [];
          Seo.recommendations := [] |};
     AnalysisResult.accessibility := Some
       {| Accessibility.score := orZero (WebsiteAnalysis.accessibilityScore item);
          Accessibility.violations := [];
          Accessibility.recommendations := [] |};
     AnalysisResult.design := Some
       {| Design.score := orZero (WebsiteAnalysis.designScore item);
          Design.analysis :=
            {| Design.colorContrast := 0; Design.typography := 0;
               Design.layout := 0; Design.responsiveness := 0 |};
          Design.recommendations := [] |};
     AnalysisResult.ux := Some
       {| Ux.score := orZero (WebsiteAnalysis.uxScore item);
          Ux.metrics :=
            {| Ux.navigationClarity := 0; Ux.contentReadability := 0;
               Ux.mobileUsability := 0; Ux.interactionDesign := 0 |};
          Ux.recommendations := [] |} |}.

(** The callback of [analyses.map] (lines 106-129): the decoded entry and
    what the callback wrote to the console.  The inner [try] catches the
    failure of [JSON.parse]. *)
Definition parseItem (P : Platform) (item : WebsiteAnalysis.t)
  : AnalysisResult.t * list Effect :=
  match JSON_parse P (WebsiteAnalysis.analysisData item) with
  | Some analysisData =>
      (spread (WebsiteAnalysis.id item) (WebsiteAnalysis.url item)
              (WebsiteAnalysis.timestamp item) analysisData, [])
  | None =>
      (fallback item, [console_error "Failed to parse analysis data:"])
  end.

Definition parsedHistory (P : Platform) (analyses : list WebsiteAnalysis.t)
  : list AnalysisResult.t :=
  map (fun item => fst (parseItem P item)) analyses.

(** [loadHistory] after [list] resolved with [analyses]. *)
Definition loadHistory_resolved (P : Platform) (analyses : list WebsiteAnalysis.t)
  (w : World) : World :=
  setHistory (parsedHistory P analyses)
    (emit (flat_map (fun item => snd (parseItem P item)) analyses) w).

(** [loadHistory] after [list] rejected: the outer [catch], lines 132-135. *)
Definition loadHistory_rejected (w : World) : World :=
  emit [console_error "Failed to load history:";
        toast_error "Failed to load analysis history"] w.

(* ===================================================================== *)
(** ** The analysis run ([analyzeWebsite], lines 152-354)                 *)
(* ===================================================================== *)

(** The string handed to [new URL] (lines 159-163).  The test is made on
    [url] as typed. *)
Definition validUrlOf (url : string) : string :=
  if negb (startsWith url "http://") && negb (startsWith url "https://")
  then "https://" ++ url
  else url.

(** Lines 153-168: [None] stands for the two early returns, which both
    show the same toast. *)
Definition validate (P : Platform) (url : string) : option string :=
  if negb (truthy (trim url)) then None
  else
    let validUrl := validUrlOf url in
    if URL_parses P validUrl then Some validUrl else None.

Definition newline : string := String (ascii_of_nat 10) EmptyString.

Definition unlines (ls : list string) : string := String.concat newline ls.

(** The template literal of lines 195-216. *)
Definition analysisPrompt (validUrl : string) (scraped : ScrapeResult) : string :=
  unlines [
    "";
    "        Analyze this website comprehensively and provide detailed insights:";
    "        ";
    "        URL: " ++ validUrl;
    "        Title: " ++ orElse (title (metadata scraped)) "No title";
    "        Description: " ++ orElse (description (metadata scraped)) "No description";
    "        ";
    "        Content Preview:";
    "        " ++ substring0 2000 (markdown scraped) ++ "...";
    "        ";
    "        Please analyze and score (0-100) the following areas:";
    "        1. Performance (load speed, optimization)";
    "        2. SEO (meta tags, structure, content)";
    "        3. Accessibility (WCAG compliance, usability)";
    "        4. Design (visual appeal, consistency, branding)";
    "        5. User Experience (navigation, content clarity, mobile-friendliness)";
    "        ";
    "        For each area, provide specific recommendations for improvement.";
    "        Also identify any critical issues that need immediate attention.";
    "        ";
    "        Provide realistic scores and detailed, actionable recommendations.";
    "      " ].

(** The three clock readings of one run: [Date.now()] at line 316, at line
    318, and [new Date()] at line 334. *)
Record Clock := { now_id : Z; now_timestamp : Z; now_createdAt : Z }.

(** Lines 315-320. *)
Definition assemble (clk : Clock) (validUrl : string) (analysis : AnalysisData.t)
  : AnalysisResult.t :=
  spread ("analysis_" ++ toString (now_id clk)) validUrl (now_timestamp clk) analysis.

(** The argument of [create] (lines 323-335).  [None] is the [TypeError]
    raised while the object literal is evaluated: [user.id] with no user,
    or [.score] of a category that the report lacks. *)
Definition createRow (P : Platform) (clk : Clock) (user : option User.t)
  (analysisResult : AnalysisResult.t) : option WebsiteAnalysis.t :=
  match user,
        AnalysisResult.performance analysisResult,
        AnalysisResult.seo analysisResult,
        AnalysisResult.accessibility analysisResult,
        AnalysisResult.design analysisResult,
        AnalysisResult.ux analysisResult with
  | Some u, Some p, Some s, Some a, Some d, Some x =>
      Some {| WebsiteAnalysis.id := AnalysisResult.id analysisResult;
              WebsiteAnalysis.userId := User.id u;
              WebsiteAnalysis.url := AnalysisResult.url analysisResult;
              WebsiteAnalysis.timestamp := AnalysisResult.timestamp analysisResult;
              WebsiteAnalysis.performanceScore := Some (Performance.score p);
              WebsiteAnalysis.seoScore := Some (Seo.score s);
              WebsiteAnalysis.accessibilityScore := Some (Accessibility.score a);
              WebsiteAnalysis.designScore := Some (Design.score d);
              WebsiteAnalysis.uxScore := Some (Ux.score x);
              WebsiteAnalysis.analysisData := JSON_stringify P analysisResult;
              WebsiteAnalysis.createdAt := now_createdAt clk |}
  | _, _, _, _, _, _ => None
  end.

(** Where a run is suspended: the [await] it is waiting on, with the local
    variables that the rest of the function still reads. *)
Inductive Pending :=
| awaitScrape (validUrl : string)
| awaitScreenshot (validUrl : string) (scraped : ScrapeResult)
| awaitGenerateObject (validUrl : string) (analysisPrompt : string)
| awaitCreate (analysisResult : AnalysisResult.t) (row : WebsiteAnalysis.t)
| awaitList (userId : string).

(** A run in flight.  [closure_user] is the [user] of the render whose
    [analyzeWebsite] was invoked. *)
Record Run := { closure_user : option User.t; pending : Pending }.

(** How an awaited promise settles. *)
Inductive Response :=
| scrape_resolved (scraped : ScrapeResult)
| screenshot_resolved (screenshotUrl : string)
| generateObject_resolved (analysis : AnalysisData.t)
| store_resolved
| rejected.

(** Lines 346-348. *)
Definition catch_ (w : World) : World :=
  emit [console_error "Analysis failed:";
        toast_error "Analysis failed. Please try again."] w.

(** Lines 349-353. *)
Definition finally_ (w : World) : World :=
  setCurrentStep "" (setProgress 0 (setAnalyzing false w)).

(** An invocation of [analyzeWebsite] up to its first [await]. *)
Definition start (P : Platform) (w : World) : World * option Run :=
  match validate P (url w) with
  | None => (emit [toast_error "Please enter a valid URL"] w, None)
  | Some validUrl =>
      let w1 := setResult None (setProgress 0 (setAnalyzing true w)) in
      let w2 := setProgress 20 (setCurrentStep "Analyzing website content..." w1) in
      (emit [scrape_called validUrl] w2,
       Some {| closure_user := user w; pending := awaitScrape validUrl |})
  end.

(** The run from the settling of its pending promise to the next [await],
    or to its end ([None]).  A response that does not answer the pending
    call leaves everything as it is. *)
Definition resume (P : Platform) (clk : Clock) (run : Run) (resp : Response)
  (w : World) : World * option Run :=
  let next p := Some {| closure_user := closure_user run; pending := p |} in
  match pending run, resp with
  | awaitScrape validUrl, scrape_resolved scraped =>
      let w1 := setProgress 40 (setCurrentStep "Capturing website screenshot..." w) in
      (emit [screenshot_called validUrl] w1, next (awaitScreenshot validUrl scraped))
  | awaitScreenshot validUrl scraped, screenshot_resolved _ =>
      let w1 := setProgress 60 (setCurrentStep "Running AI analysis..." w) in
      let prompt := analysisPrompt validUrl scraped in
      (emit [generateObject_called prompt] w1, next (awaitGenerateObject validUrl prompt))
  | awaitGenerateObject validUrl _, generateObject_resolved analysis =>
      let w1 := setProgress 80 (setCurrentStep "Saving analysis results..." w) in
      let analysisResult := assemble clk validUrl analysis in
      match createRow P clk (closure_user run) analysisResult with
      | Some row => (emit [create_called row] w1, next (awaitCreate analysisResult row))
      | None => (finally_ (catch_ w1), None)
      end
  | awaitCreate analysisResult row, store_resolved =>
      let w1 := persist row w in
      let w2 := setResult (Some analysisResult)
                  (setCurrentStep "Analysis complete!" (setProgress 100 w1)) in
      match closure_user run with
      | Some u => (emit [list_called (User.id u)] w2, next (awaitList (User.id u)))
      | None => (finally_ (emit [toast_success "Website analysis completed!"] w2), None)
      end
  | awaitList userId, store_resolved =>
      let w1 := loadHistory_resolved P (db_list (db w) userId 10) w in
      (finally_ (emit [toast_success "Website analysis completed!"] w1), None)
  | awaitList userId, rejected =>
      let w1 := loadHistory_rejected w in
      (finally_ (emit [toast_success "Website analysis completed!"] w1), None)
  | awaitScrape _, rejected
  | awaitScreenshot _ _, rejected
  | awaitGenerateObject _ _, rejected
  | awaitCreate _ _, rejected => (finally_ (catch_ w), None)
  | _, _ => (w, Some run)
  end.

(** The outcome of each external call of one run: [None] is a rejected
    promise.  [create_resolves] and [list_resolves] tell whether the store
    answers the call. *)
Record Env := {
  scrape : string -> option ScrapeResult;
  screenshot : string -> option string;
  generateObject : string -> option AnalysisData.t;
  create_resolves : WebsiteAnalysis.t -> bool;
  list_resolves : bool;
  clock : Clock }.

(** What the services of [env] answer to the call a run is waiting on. *)
Definition respond (env : Env) (run : Run) : Response :=
  match pending run with
  | awaitScrape validUrl =>
      match scrape env validUrl with
      | Some scraped => scrape_resolved scraped
      | None => rejected
      end
  | awaitScreenshot validUrl _ =>
      match screenshot env validUrl with
      | Some screenshotUrl => screenshot_resolved screenshotUrl
      | None => rejected
      end
  | awaitGenerateObject _ prompt =>
      match generateObject env prompt with
      | Some analysis => generateObject_resolved analysis
      | None => rejected
      end
  | awaitCreate _ row => if create_resolves env row then store_resolved else rejected
  | awaitList _ => if list_resolves env then store_resolved else rejected
  end.

Fixpoint run_to_end (fuel : nat) (P : Platform) (env : Env) (run : Run) (w : World)
  : World :=
  match fuel with
  | O => w
  | S fuel' =>
      match resume P (clock env) run (respond env run) w with
      | (w', Some run') => run_to_end fuel' P env run' w'
      | (w', None) => w'
      end
  end.

(** One whole invocation of [analyzeWebsite] against the services [env].
    A run waits on at most five promises. *)
Definition analyzeWebsite (P : Platform) (env : Env) (w : World) : World :=
  match start P w with
  | (w1, Some run) => run_to_end 5 P env run w1
  | (w1, None) => w1
  end.

(* ===================================================================== *)
(** ** The component as an event-driven system                            *)
(* ===================================================================== *)

(** The state of the page between two events: the React state and the
    runs of [analyzeWebsite] that are suspended on a promise. *)
Record System := { world : World; inflight : list Run }.

(** The events of the analysis panel and of the history list (lines
    484-496 and 863-868), the settling of the promise that the [k]-th
    suspended run waits on, and the settling of the [list] call of the
    [loadHistory] that the effect of lines 146-150 starts.  React commits
    the state updates of a handler before the next event is dispatched, so
    a handler reads the current state. *)
Inductive Event :=
| onChange (value : string)
| onKeyPress_Enter
| onClick_Analyze
| onClick_historyItem (index : nat)
| settled (k : nat) (clk : Clock) (resp : Response)
| historyListed (resolved : bool).

(** The panel is rendered only for a signed-in user (lines 403-438);
    signing in and out are outside the model. *)
Definition rendered (w : World) : bool :=
  match user w with Some _ => true | None => false end.

Definition invoke (P : Platform) (sys : System) : System :=
  match start P (world sys) with
  | (w, Some run) => {| world := w; inflight := (inflight sys ++ [run])%list |}
  | (w, None) => {| world := w; inflight := inflight sys |}
  end.

(** Lines 368-371. *)
Definition loadHistoryItem (item : AnalysisResult.t) (w : World) : World :=
  setUrl (AnalysisResult.url item) (setResult (Some item) w).

Definition settle (k : nat) (next : option Run) (runs : list Run) : list Run :=
  (firstn k runs
     ++ match next with Some run => [run] | None => [] end
     ++ skipn (S k) runs)%list.

Definition step (P : Platform) (ev : Event) (sys : System) : System :=
  let w := world sys in
  match ev with
  | onChange value =>
      (* [disabled={analyzing}] *)
      if rendered w && negb (analyzing w)
      then {| world := setUrl value w; inflight := inflight sys |}
      else sys
  | onKeyPress_Enter =>
      (* [e.key === 'Enter' && !analyzing && analyzeWebsite()] *)
      if rendered w && negb (analyzing w) then invoke P sys else sys
  | onClick_Analyze =>
      (* [disabled={analyzing || !url.trim()}] *)
      if rendered w && negb (analyzing w || negb (truthy (trim (url w))))
      then invoke P sys
      else sys
  | onClick_historyItem index =>
      match rendered w, nth_error (history w) index with
      | true, Some item => {| world := loadHistoryItem item w; inflight := inflight sys |}
      | _, _ => sys
      end
  | settled k clk resp =>
      match nth_error (inflight sys) k with
      | Some run =>
          let (w', next) := resume P clk run resp w in
          {| world := w'; inflight := settle k next (inflight sys) |}
      | None => sys
      end
  | historyListed resolved =>
      match user w with
      | Some u =>
          let w1 := emit [list_called (User.id u)] w in
          {| world := if resolved
                      then loadHistory_resolved P (db_list (db w) (User.id u) 10) w1
                      else loadHistory_rejected w1;
             inflight := inflight sys |}
      | None => sys
      end
  end.

Definition steps (P : Platform) (evs : list Event) (sys : System) : System :=
  fold_left (fun s ev => step P ev s) evs sys.

(** The page of a signed-in user before any event. *)
Definition initial (u : User.t) (store : Store) (history : list AnalysisResult.t)
  : System :=
  {| world := mkWorld (Some u) "" false 0 "" None history store [];
     inflight := [] |}.

(* ===================================================================== *)
(** ** Score aggregation (lines 385, 876, 916-921)                        *)
(* ===================================================================== *)

(** [Math.round((p + s + a + d + x) / 5)] on five numbers, the expression of
    lines 385 and 876: four additions from left to right, one division,
    each rounded to a double, then [Math.round]. *)
Definition overallOf (p s a d x : double) : double :=
  Math_round
    (double_div
       (double_add (double_add (double_add (double_add p s) a) d) x)
       (double_of_Z 5)).

(** [Math.round((performance.score + seo.score + accessibility.score +
    design.score + ux.score) / 5)] on an entry, the same expression at
    lines 385 and 876.  [None] is the [TypeError] on a missing category. *)
Definition overallScore (item : AnalysisResult.t) : option double :=
  match AnalysisResult.performance item, AnalysisResult.seo item,
        AnalysisResult.accessibility item, AnalysisResult.design item,
        AnalysisResult.ux item with
  | Some p, Some s, Some a, Some d, Some x =>
      Some (overallOf (double_of_Z (Performance.score p)) (double_of_Z (Seo.score s))
                      (double_of_Z (Accessibility.score a)) (double_of_Z (Design.score d))
                      (double_of_Z (Ux.score x)))
  | _, _, _, _, _ => None
  end.

(** The "Best Category" cell of the quick stats (line 919). *)
Definition bestCategory (history : list AnalysisResult.t) : string :=
  if (0 <? List.length history)%nat then "Design" else "N/A".

(** Following the specification (section 4.7): the best category of a
    history window is the one with the highest mean score across its
    entries.  All means share the divisor, so totals are compared; a tie
    goes to the category listed first. *)
Inductive Category :=
| cat_performance | cat_seo | cat_accessibility | cat_design | cat_ux.

Definition categoryScore (c : Category) (item : AnalysisResult.t) : Z :=
  match c with
  | cat_performance => orDefault (option_map Performance.score (AnalysisResult.performance item)) 0
  | cat_seo => orDefault (option_map Seo.score (AnalysisResult.seo item)) 0
  | cat_accessibility =>
      orDefault (option_map Accessibility.score (AnalysisResult.accessibility item)) 0
  | cat_design => orDefault (option_map Design.score (AnalysisResult.design item)) 0
  | cat_ux => orDefault (option_map Ux.score (AnalysisResult.ux item)) 0
  end.

Definition spec_categoryTotal (c : Category) (history : list AnalysisResult.t) : Z :=
  fold_right (fun item acc => categoryScore c item + acc) 0 history.

Definition spec_categoryMean (c : Category) (history : list AnalysisResult.t) : Q :=
  inject_Z (spec_categoryTotal c history) / inject_Z (Z.of_nat (List.length history)).

Definition spec_bestCategory (history : list AnalysisResult.t) : Category :=
  fold_left
    (fun best c =>
       if spec_categoryTotal best history <? spec_categoryTotal c history then c else best)
    [cat_seo; cat_accessibility; cat_design; cat_ux] cat_performance.

Definition categoryLabel (c : Category) : string :=
  match c with
  | cat_performance => "Performance"
  | cat_seo => "SEO"
  | cat_accessibility => "Accessibility"
  | cat_design => "Design"
  | cat_ux => "UX"
  end.

(* ===================================================================== *)
(** ** A platform to run the model on                                     *)
(* ===================================================================== *)

(** The theorems below hold for every [Platform].  To evaluate the model on
    concrete inputs, [sample_platform] supplies a codec that really prints
    and parses text (the report as an S-expression, written and read by
    Ceres, in place of JSON text) and a URL check that covers plain
    [http(s)://host/...] addresses. *)

Definition tuple_of_Q (q : Q) : Z * Z := (Qnum q, Z.pos (Qden q)).
Definition Q_of_tuple (t : Z * Z) : Q := Qmake (fst t) (Z.to_pos (snd t)).

Definition performance_tuple := (Z * ((Z * Z) * (Z * Z) * (Z * Z) * (Z * Z)) * list string)%type.

Definition tuple_of_performance (p : Performance.t) : performance_tuple :=
  let m := Performance.metrics p in
  (Performance.score p,
   (tuple_of_Q (Performance.loadTime m), tuple_of_Q (Performance.firstContentfulPaint m),
    tuple_of_Q (Performance.largestContentfulPaint m),
    tuple_of_Q (Performance.cumulativeLayoutShift m)),
   Performance.recommendations p).

Definition performance_of_tuple (t : performance_tuple) : Performance.t :=
  let '(s, (a, b, c, d), r) := t in
  {| Performance.score := s;
     Performance.metrics :=
       {| Performance.loadTime := Q_of_tuple a;
          Performance.firstContentfulPaint := Q_of_tuple b;
          Performance.largestContentfulPaint := Q_of_tuple c;
          Performance.cumulativeLayoutShift := Q_of_tuple d |};
     Performance.recommendations := r |}.

Definition seo_tuple := (Z * list (Z * string * Z) * list string)%type.

Definition tuple_of_seo (s : Seo.t) : seo_tuple :=
  (Seo.score s,
   map (fun i =>
          (match Seo.type i with Seo.error => 0 | Seo.warning => 1 | Seo.info => 2 end,
           Seo.message i,
           match Seo.impact i with Seo.high => 0 | Seo.medium => 1 | Seo.low => 2 end))
       (Seo.issues s),
   Seo.recommendations s).

Definition seo_of_tuple (t : seo_tuple) : Seo.t :=
  let '(s, issues, r) := t in
  {| Seo.score := s;
     Seo.issues :=
       map (fun i : Z * string * Z =>
              let '(ty, m, im) := i in
              {| Seo.type := if ty =? 0 then Seo.error
                             else if ty =? 1 then Seo.warning else Seo.info;
                 Seo.message := m;
                 Seo.impact := if im =? 0 then Seo.high
                               else if im =? 1 then Seo.medium else Seo.low |}) issues;
     Seo.recommendations := r |}.

Definition accessibility_tuple := (Z * list (Z * string * string) * list string)%type.

Definition tuple_of_accessibility (a : Accessibility.t) : accessibility_tuple :=
  (Accessibility.score a,
   map (fun v =>
          (match Accessibility.severity v with
           | Accessibility.critical => 0 | Accessibility.serious => 1
           | Accessibility.moderate => 2 | Accessibility.minor => 3
           end,
           Accessibility.description v, Accessibility.element v))
       (Accessibility.violations a),
   Accessibility.recommendations a).

Definition accessibility_of_tuple (t : accessibility_tuple) : Accessibility.t :=
  let '(s, vs, r) := t in
  {| Accessibility.score := s;
     Accessibility.violations :=
       map (fun v : Z * string * string =>
              let '(sv, d, e) := v in
              {| Accessibility.severity :=
                   if sv =? 0 then Accessibility.critical
                   else if sv =? 1 then Accessibility.serious
                   else if sv =? 2 then Accessibility.moderate else Accessibility.minor;
                 Accessibility.description := d;
                 Accessibility.element := e |}) vs;
     Accessibility.recommendations := r |}.

Definition design_tuple := (Z * (Z * Z * Z * Z) * list string)%type.

Definition tuple_of_design (d : Design.t) : design_tuple :=
  let a := Design.analysis d in
  (Design.score d,
   (Design.colorContrast a, Design.typography a, Design.layout a, Design.responsiveness a),
   Design.recommendations d).

Definition design_of_tuple (t : design_tuple) : Design.t :=
  let '(s, (a, b, c, d), r) := t in
  {| Design.score := s;
     Design.analysis :=
       {| Design.colorContrast := a; Design.typography := b;
          Design.layout := c; Design.responsiveness := d |};
     Design.recommendations := r |}.

Definition tuple_of_ux (x : Ux.t) : design_tuple :=
  let m := Ux.metrics x in
  (Ux.score x,
   (Ux.navigationClarity m, Ux.contentReadability m, Ux.mobileUsability m,
    Ux.interactionDesign m),
   Ux.recommendations x).

Definition ux_of_tuple (t : design_tuple) : Ux.t :=
  let '(s, (a, b, c, d), r) := t in
  {| Ux.score := s;
     Ux.metrics :=
       {| Ux.navigationClarity := a; Ux.contentReadability := b;
          Ux.mobileUsability := c; Ux.interactionDesign := d |};
     Ux.recommendations := r |}.

Definition data_tuple :=
  ((option string * option string * option Z)
   * (option performance_tuple * option seo_tuple * option accessibility_tuple)
   * (option design_tuple * option design_tuple))%type.

(** The properties that [JSON.stringify] writes for a report: all of them,
    a missing category being left out. *)
Definition dataOf (r : AnalysisResult.t) : AnalysisData.t :=
  {| AnalysisData.id := Some (AnalysisResult.id r);
     AnalysisData.url := Some (AnalysisResult.url r);
     AnalysisData.timestamp := Some (AnalysisResult.timestamp r);
     AnalysisData.performance := AnalysisResult.performance r;
     AnalysisData.seo := AnalysisResult.seo r;
     AnalysisData.accessibility := AnalysisResult.accessibility r;
     AnalysisData.design := AnalysisResult.design r;
     AnalysisData.ux := AnalysisResult.ux r |}.

Definition tuple_of_data (d : AnalysisData.t) : data_tuple :=
  ((AnalysisData.id d, AnalysisData.url d, AnalysisData.timestamp d),
   (option_map tuple_of_performance (AnalysisData.performance d),
    option_map tuple_of_seo (AnalysisData.seo d),
    option_map tuple_of_accessibility (AnalysisData.accessibility d)),
   (option_map tuple_of_design (AnalysisData.design d),
    option_map tuple_of_ux (AnalysisData.ux d))).

Definition data_of_tuple (t : data_tuple) : AnalysisData.t :=
  let '((i, u, ts), (p, s, a), (d, x)) := t in
  {| AnalysisData.id := i;
     AnalysisData.url := u;
     AnalysisData.timestamp := ts;
     AnalysisData.performance := option_map performance_of_tuple p;
     AnalysisData.seo := option_map seo_of_tuple s;
     AnalysisData.accessibility := option_map accessibility_of_tuple a;
     AnalysisData.design := option_map design_of_tuple d;
     AnalysisData.ux := option_map ux_of_tuple x |}.

Definition sample_stringify (r : AnalysisResult.t) : string :=
  to_string (tuple_of_data (dataOf r)).

Definition sample_parse (s : string) : option AnalysisData.t :=
  match (from_string s : CeresDeserialize.error + data_tuple) with
  | inr t => Some (data_of_tuple t)
  | inl _ => None
  end.

Definition isC0OrSpace (c : ascii) : bool := (nat_of_ascii c <=? 32)%nat.

Definition afterScheme (s : string) : option string :=
  if String.prefix "https://" s then Some (String.substring 8 (String.length s - 8) s)
  else if String.prefix "http://" s then Some (String.substring 7 (String.length s - 7) s)
  else None.

Fixpoint takeUntil (f : ascii -> bool) (s : string) : string :=
  match s with
  | String c s' => if f c then EmptyString else String c (takeUntil f s')
  | EmptyString => EmptyString
  end.

Fixpoint allChars (f : ascii -> bool) (s : string) : bool :=
  match s with
  | String c s' => f c && allChars f s'
  | EmptyString => true
  end.

Definition endsHost (c : ascii) : bool :=
  existsb (Ascii.eqb c) ["/"; "?"; "#"; "\"]%char.

Definition allowedInHost (c : ascii) : bool :=
  negb (isC0OrSpace c)
  && negb (existsb (Ascii.eqb c) ["<"; ">"; "^"; "|"; "%"]%char)
  && negb (nat_of_ascii c =? 127)%nat.

(** An [http(s)] address parses when, white space at both ends aside, its
    host is not empty and holds no space or other forbidden character. *)
Definition sample_URL_parses (s : string) : bool :=
  match afterScheme (dropWhileEnd isC0OrSpace (dropWhile isC0OrSpace s)) with
  | Some rest =>
      let host := takeUntil endsHost rest in
      negb (String.eqb host "") && allChars allowedInHost host
  | None => false
  end.

Definition sample_platform : Platform :=
  {| URL_parses := sample_URL_parses;
     JSON_stringify := sample_stringify;
     JSON_parse := sample_parse |}.

(** *** A second codec, proved to invert

    Ceres' parser comes with a proof that it accepts only what denotes the
    value it returns, not with a proof that it reads back all it prints.
    [framed_platform] has a codec plain enough for the round trip to be
    proved for every report: a value is written field by field, and read
    back by one pass over the text. *)

(** A codec: how a value is written, and how a value is read off the front
    of a text, leaving the rest. *)
Record Codec (A : Type) := {
  encode : A -> string;
  decode : string -> option (A * string) }.
Arguments encode {A}.
Arguments decode {A}.

Fixpoint encode_positive (p : positive) : string :=
  match p with
  | xI q => String "1" (encode_positive q)
  | xO q => String "0" (encode_positive q)
  | xH => "."
  end.

Fixpoint decode_positive (s : string) : option (positive * string) :=
  match s with
  | String "1" s' => option_map (fun r => (xI (fst r), snd r)) (decode_positive s')
  | String "0" s' => option_map (fun r => (xO (fst r), snd r)) (decode_positive s')
  | String "." s' => Some (xH, s')
  | _ => None
  end.

Definition positive_codec : Codec positive :=
  {| encode := encode_positive; decode := decode_positive |}.

Definition Z_codec : Codec Z :=
  {| encode := fun z =>
       match z with
       | Z0 => "z"
       | Zpos p => String "+" (encode_positive p)
       | Zneg p => String "-" (encode_positive p)
       end;
     decode := fun s =>
       match s with
       | String "z" s' => Some (Z0, s')
       | String "+" s' => option_map (fun r => (Zpos (fst r), snd r)) (decode_positive s')
       | String "-" s' => option_map (fun r => (Zneg (fst r), snd r)) (decode_positive s')
       | _ => None
       end |}.

Definition ascii_codec : Codec ascii :=
  {| encode := fun c => String c "";
     decode := fun s => match s with String c s' => Some (c, s') | "" => None end |}.

Definition option_codec {A : Type} (C : Codec A) : Codec (option A) :=
  {| encode := fun o =>
       match o with
       | None => "N"
       | Some a => String "S" (encode C a)
       end;
     decode := fun s =>
       match s with
       | String "N" s' => Some (None, s')
       | String "S" s' => option_map (fun r => (Some (fst r), snd r)) (decode C s')
       | _ => None
       end |}.

Definition pair_codec {A B : Type} (CA : Codec A) (CB : Codec B) : Codec (A * B) :=
  {| encode := fun ab => encode CA (fst ab) ++ encode CB (snd ab);
     decode := fun s =>
       match decode CA s with
       | Some (a, s') => option_map (fun r => ((a, fst r), snd r)) (decode CB s')
       | None => None
       end |}.

Fixpoint encode_all {A : Type} (C : Codec A) (l : list A) : string :=
  match l with
  | [] => ""
  | a :: l' => encode C a ++ encode_all C l'
  end.

Fixpoint decode_n {A : Type} (C : Codec A) (n : nat) (s : string)
  : option (list A * string) :=
  match n with
  | O => Some ([], s)
  | S k =>
      match decode C s with
      | Some (a, s') => option_map (fun r => (a :: fst r, snd r)) (decode_n C k s')
      | None => None
      end
  end.

(** A list is framed by its length. *)
Definition list_codec {A : Type} (C : Codec A) : Codec (list A) :=
  {| encode := fun l => encode Z_codec (Z.of_nat (List.length l)) ++ encode_all C l;
     decode := fun s =>
       match decode Z_codec s with
       | Some (n, s') => decode_n C (Z.to_nat n) s'
       | None => None
       end |}.

Definition string_codec : Codec string :=
  {| encode := fun s => encode (list_codec ascii_codec) (list_ascii_of_string s);
     decode := fun s =>
       option_map (fun r => (string_of_list_ascii (fst r), snd r))
                  (decode (list_codec ascii_codec) s) |}.

Definition data_codec : Codec data_tuple :=
  let Q_ := pair_codec Z_codec Z_codec in
  let strings := list_codec string_codec in
  let figures := pair_codec (pair_codec (pair_codec Z_codec Z_codec) Z_codec) Z_codec in
  let design := pair_codec (pair_codec Z_codec figures) strings in
  pair_codec
    (pair_codec
       (pair_codec (pair_codec (option_codec string_codec) (option_codec string_codec))
                   (option_codec Z_codec))
       (pair_codec
          (pair_codec
             (option_codec
                (pair_codec
                   (pair_codec Z_codec
                      (pair_codec (pair_codec (pair_codec Q_ Q_) Q_) Q_))
                   strings))
             (option_codec
                (pair_codec
                   (pair_codec Z_codec
                      (list_codec (pair_codec (pair_codec Z_codec string_codec) Z_codec)))
                   strings)))
          (option_codec
             (pair_codec
                (pair_codec Z_codec
                   (list_codec (pair_codec (pair_codec Z_codec string_codec) string_codec)))
                strings))))
    (pair_codec (option_codec design) (option_codec design)).

(** The report written field by field: an integer in binary, a list and a
    string framed by their length. *)
Definition framed_stringify (r : AnalysisResult.t) : string :=
  encode data_codec (tuple_of_data (dataOf r)).

Definition framed_parse (s : string) : option AnalysisData.t :=
  match decode data_codec s with
  | Some (t, "") => Some (data_of_tuple t)
  | _ => None
  end.

Definition framed_platform : Platform :=
  {| URL_parses := sample_URL_parses;
     JSON_stringify := framed_stringify;
     JSON_parse := framed_parse |}.

(** A codec inverts when reading what was written gives the value back and
    leaves what followed. *)
Definition inverts {A : Type} (C : Codec A) : Prop :=
  forall a rest, decode C (encode C a ++ rest) = Some (a, rest).

(** A parser that is no inverse of the printer: it accepts every text and
    answers with an object that has an id and nothing else. *)
Definition sample_forgetful_platform : Platform :=
  {| URL_parses := sample_URL_parses;
     JSON_stringify := framed_stringify;
     JSON_parse := fun _ =>
       Some {| AnalysisData.id := Some "analysis_0";
               AnalysisData.url := None;
               AnalysisData.timestamp := None;
               AnalysisData.performance := None;
               AnalysisData.seo := None;
               AnalysisData.accessibility := None;
               AnalysisData.design := None;
               AnalysisData.ux := None |} |}.

(** *** Sample inputs *)

Definition sample_user : User.t :=
  {| User.id := "user_1"; User.email := "ann@example.com" |}.

Definition sample_scraped : ScrapeResult :=
  {| markdown := "# Example Domain";
     metadata := {| title := Some "Example Domain"; description := None |} |}.

(** A schema-conforming analysis with the five given scores. *)
Definition sample_analysis (p s a d x : Z) : AnalysisData.t :=
  {| AnalysisData.id := None;
     AnalysisData.url := None;
     AnalysisData.timestamp := None;
     AnalysisData.performance := Some
       {| Performance.score := p;
          Performance.metrics :=
            {| Performance.loadTime := 5 # 2;
               Performance.firstContentfulPaint := 6 # 5;
               Performance.largestContentfulPaint := 2 # 1;
               Performance.cumulativeLayoutShift := 1 # 10 |};
          Performance.recommendations := ["Compress images"] |};
     AnalysisData.seo := Some
       {| Seo.score := s;
          Seo.issues :=
            [ {| Seo.type := Seo.warning; Seo.message := "Missing meta description";
                 Seo.impact := Seo.medium |} ];
          Seo.recommendations := ["Add a meta description"] |};
     AnalysisData.accessibility := Some
       {| Accessibility.score := a;
          Accessibility.violations :=
            [ {| Accessibility.severity := Accessibility.serious;
                 Accessibility.description := "Image without alt text";
                 Accessibility.element := "img" |} ];
          Accessibility.recommendations := [] |};
     AnalysisData.design := Some
       {| Design.score := d;
          Design.analysis :=
            {| Design.colorContrast := 70; Design.typography := 80;
               Design.layout := 75; Design.responsiveness := 90 |};
          Design.recommendations := [] |};
     AnalysisData.ux := Some
       {| Ux.score := x;
          Ux.metrics :=
            {| Ux.navigationClarity := 60; Ux.contentReadability := 85;
               Ux.mobileUsability := 70; Ux.interactionDesign := 65 |};
          Ux.recommendations := ["Shorten the menu"] |} |}.

(** Services that all answer; the analyzer returns [analysis]. *)
Definition sample_env (analysis : AnalysisData.t) (clk : Clock) : Env :=
  {| scrape := fun _ => Some sample_scraped;
     screenshot := fun _ => Some "https://cdn.example.com/shot.png";
     generateObject := fun _ => Some analysis;
     create_resolves := fun _ => true;
     list_resolves := true;
     clock := clk |}.

Definition sample_clock (t : Z) : Clock :=
  {| now_id := t; now_timestamp := t; now_createdAt := t |}.

(** The page of [sample_user] with [typed] in the input box. *)
Definition sample_world (typed : string) (store : Store) : World :=
  mkWorld (Some sample_user) typed false 0 "" None [] store [].

(** A run in which the screenshot service rejects. *)
Definition sample_env_capture_fails : Env :=
  {| scrape := fun _ => Some sample_scraped;
     screenshot := fun _ => None;
     generateObject := fun _ => Some (sample_analysis 80 60 90 70 50);
     create_resolves := fun _ => true;
     list_resolves := true;
     clock := sample_clock 1700000000000 |}.

(** The report assembled at clock reading [t] from [sample_analysis]. *)
Definition sample_report (t : Z) (p s a d x : Z) : AnalysisResult.t :=
  assemble (sample_clock t) "https://example.com" (sample_analysis p s a d x).

(** A row whose blob is not the text of any value. *)
Definition sample_corrupt_row : WebsiteAnalysis.t :=
  {| WebsiteAnalysis.id := "analysis_1600000000000";
     WebsiteAnalysis.userId := "user_1";
     WebsiteAnalysis.url := "https://old.example.com";
     WebsiteAnalysis.timestamp := 1600000000000;
     WebsiteAnalysis.performanceScore := Some 55;
     WebsiteAnalysis.seoScore := Some 0;
     WebsiteAnalysis.accessibilityScore := Some 65;
     WebsiteAnalysis.designScore := Some 75;
     WebsiteAnalysis.uxScore := Some 85;
     WebsiteAnalysis.analysisData := "((performance";
     WebsiteAnalysis.createdAt := 1600000000000 |}.

(* ===================================================================== *)
(** ** Vocabulary of the statements                                       *)
(* ===================================================================== *)

Inductive Stage := Fetch | Capture | Analyze | Persist.

(** How a run against [env] ends, read off the answers of the services:
    the input is refused, a stage fails, or the report assembled from
    [analysis] is persisted as [row].  An analysis that lacks a category
    is a failure of the analyze stage. *)
Inductive Outcome :=
| refused
| failed (stage : Stage)
| completed (validUrl : string) (analysis : AnalysisData.t) (row : WebsiteAnalysis.t).

Definition conforms (analysis : AnalysisData.t) : bool :=
  match AnalysisData.performance analysis, AnalysisData.seo analysis,
        AnalysisData.accessibility analysis, AnalysisData.design analysis,
        AnalysisData.ux analysis with
  | Some _, Some _, Some _, Some _, Some _ => true
  | _, _, _, _, _ => false
  end.

Definition outcome (P : Platform) (env : Env) (w : World) : Outcome :=
  match validate P (url w) with
  | None => refused
  | Some validUrl =>
      match scrape env validUrl with
      | None => failed Fetch
      | Some scraped =>
          match screenshot env validUrl with
          | None => failed Capture
          | Some _ =>
              match generateObject env (analysisPrompt validUrl scraped) with
              | None => failed Analyze
              | Some analysis =>
                  match createRow P (clock env) (user w)
                                  (assemble (clock env) validUrl analysis) with
                  | None => failed (if conforms analysis then Persist else Analyze)
                  | Some row =>
                      if create_resolves env row
                      then completed validUrl analysis row
                      else failed Persist
                  end
              end
          end
      end
  end.

(** The observable progress state at rest. *)
Definition idle (w : World) : Prop :=
  analyzing w = false /\ progress w = 0 /\ currentStep w = "".

Definition isToast (e : Effect) : bool :=
  match e with
  | toast_error _ | toast_success _ => true
  | _ => false
  end.

(** The user-facing notices among the effects. *)
Definition toasts (es : list Effect) : list Effect := filter isToast es.

Definition isCreate (e : Effect) : bool :=
  match e with
  | create_called _ => true
  | _ => false
  end.

Definition inRange (score : Z) : Prop := 0 <= score <= 100.

(** The five category scores of a report, when all are there. *)
Definition scoresOf (r : AnalysisResult.t) : option (Z * Z * Z * Z * Z) :=
  match AnalysisResult.performance r, AnalysisResult.seo r,
        AnalysisResult.accessibility r, AnalysisResult.design r,
        AnalysisResult.ux r with
  | Some p, Some s, Some a, Some d, Some x =>
      Some (Performance.score p, Seo.score s, Accessibility.score a,
            Design.score d, Ux.score x)
  | _, _, _, _, _ => None
  end.

(** The five denormalized scores of a stored row. *)
Definition rowScores (row : WebsiteAnalysis.t) : option (Z * Z * Z * Z * Z) :=
  match WebsiteAnalysis.performanceScore row, WebsiteAnalysis.seoScore row,
        WebsiteAnalysis.accessibilityScore row, WebsiteAnalysis.designScore row,
        WebsiteAnalysis.uxScore row with
  | Some p, Some s, Some a, Some d, Some x => Some (p, s, a, d, x)
  | _, _, _, _, _ => None
  end.

Definition allInRange (scores : Z * Z * Z * Z * Z) : Prop :=
  let '(p, s, a, d, x) := scores in
  inRange p /\ inRange s /\ inRange a /\ inRange d /\ inRange x.

(** The arithmetic mean of five scores. *)
Definition mean5 (scores : Z * Z * Z * Z * Z) : Q :=
  let '(p, s, a, d, x) := scores in inject_Z (p + s + a + d + x) / 5.

(** [n] is [q] rounded to the nearest integer, a half rounding up. *)
Definition roundsHalfUpTo (q : Q) (n : Z) : Prop :=
  (inject_Z n - (1 # 2) <= q /\ q < inject_Z n + (1 # 2))%Q.

(** The same as a function: [floor (q + 1/2)]. *)
Definition roundHalfUp (q : Q) : Z := Qfloor (q + (1 # 2)).

(** The number that a decimal literal with one digit after the point
    denotes: [n / 10] rounded to a double. *)
Definition tenths (n : Z) : double := double_div (double_of_Z n) (double_of_Z 10).

(** [JSON.parse] reads back what [JSON.stringify] wrote: where it accepts
    the text of a report, the object it returns has the properties of the
    report.  ECMAScript's JSON has this property on objects made of
    strings, finite numbers, arrays and plain objects. *)
Definition parse_inverts_stringify (P : Platform) : Prop :=
  forall r d, JSON_parse P (JSON_stringify P r) = Some d -> d = dataOf r.

(** *** Double arithmetic on small integers, checked case by case *)

Definition sameDouble (x y : double) : bool :=
  match x, y with
  | S754_zero s, S754_zero t => Bool.eqb s t
  | S754_infinity s, S754_infinity t => Bool.eqb s t
  | S754_nan, S754_nan => true
  | S754_finite s m e, S754_finite t n f => Bool.eqb s t && Pos.eqb m n && Z.eqb e f
  | _, _ => false
  end.

(** The integers from 0 to [n]. *)
Definition upTo (n : nat) : list Z := map Z.of_nat (seq 0 (S n)).

(** Adding the doubles of [a <= m] and [b <= n] gives the double of
    [a + b]. *)
Definition sumsExact (m n : nat) : bool :=
  forallb (fun a =>
             forallb (fun b => sameDouble (double_add (double_of_Z a) (double_of_Z b))
                                          (double_of_Z (a + b)))
                     (upTo n))
          (upTo m).

(** Dividing the double of [k <= n] by 5 and rounding gives the double of
    [(2 k + 5) / 10], the integer quotient. *)
Definition fifthsRound (n : nat) : bool :=
  forallb (fun k => sameDouble (Math_round (double_div (double_of_Z k) (double_of_Z 5)))
                               (double_of_Z ((2 * k + 5) / 10)))
          (upTo n).

(** A history entry with nothing but scores: the detail bundles are zeroed
    and every list is empty. *)
Definition bareEntry (i u : string) (t : Z) (scores : Z * Z * Z * Z * Z)
  : AnalysisResult.t :=
  let '(p, s, a, d, x) := scores in
  {| AnalysisResult.id := i;
     AnalysisResult.url := u;
     AnalysisResult.timestamp := t;
     AnalysisResult.performance := Some
       {| Performance.score := p;
          Performance.metrics := Performance.Build_metrics_t 0 0 0 0;
          Performance.recommendations := [] |};
     AnalysisResult.seo := Some
       {| Seo.score := s; Seo.issues := []; Seo.recommendations := [] |};
     AnalysisResult.accessibility := Some
       {| Accessibility.score := a; Accessibility.violations := [];
          Accessibility.recommendations := [] |};
     AnalysisResult.design := Some
       {| Design.score := d;
          Design.analysis := Design.Build_analysis_t 0 0 0 0;
          Design.recommendations := [] |};
     AnalysisResult.ux := Some
       {| Ux.score := x;
          Ux.metrics := Ux.Build_metrics_t 0 0 0 0;
          Ux.recommendations := [] |} |}.

(** How many promises a suspended run still has to wait on. *)
Definition awaitsLeft (p : Pending) : nat :=
  match p with
  | awaitScrape _ => 5
  | awaitScreenshot _ _ => 4
  | awaitGenerateObject _ _ => 3
  | awaitCreate _ _ => 2
  | awaitList _ => 1
  end.

(** Single flight: no run is suspended and the progress state is at rest,
    or exactly one run is suspended and [analyzing] is set. *)
Definition singleFlight (sys : System) : Prop :=
  (inflight sys = [] /\ idle (world sys)) \/
  (exists run, inflight sys = [run] /\ analyzing (world sys) = true).

(* ===================================================================== *)
(** ** The rest of the component                                          *)
(* ===================================================================== *)



(** [loadHistory] as a whole (lines 95-136), against a store whose [list]
    call resolves or rejects. *)
Definition loadHistory (P : Platform) (resolves : bool) (w : World) : World :=
  match user w with
  | None => w
  | Some u =>
      let w1 := emit [list_called (User.id u)] w in
      if resolves
      then loadHistory_resolved P (db_list (db w) (User.id u) 10) w1
      else loadHistory_rejected w1
  end.

(** The object that [exportReport] serializes (lines 376-388). *)
Module ReportData.
Record scores_t := {
    performance : Z;
    seo : Z;
    accessibility : Z;
    design : Z;
    ux : Z;
    overall : double }.
Record t := {
    url : string;
    timestamp : string;
    scores : scores_t;
    analysis : AnalysisResult.t }.
End ReportData.



(** *** Vocabulary of the further statements *)

Inductive Service :=
| scrape_service | screenshot_service | generateObject_service
| create_service | list_service.

Definition serviceOf (e : Effect) : option Service :=
  match e with
  | scrape_called _ => Some scrape_service
  | screenshot_called _ => Some screenshot_service
  | generateObject_called _ => Some generateObject_service
  | create_called _ => Some create_service
  | list_called _ => Some list_service
  | _ => None
  end.

(** The services called, in the order of the calls. *)
Fixpoint callsOf (es : list Effect) : list Service :=
  match es with
  | [] => []
  | e :: es' =>
      match serviceOf e with
      | Some s => s :: callsOf es'
      | None => callsOf es'
      end
  end.

Definition pipelineOrder : list Service :=
  [scrape_service; screenshot_service; generateObject_service;
   create_service; list_service].

(** The progress checkpoint and the step label that a run shows while it
    waits (lines 176-177, 182-183, 192-193, 312-313, 337-338). *)
Definition checkpoint (p : Pending) : Z :=
  match p with
  | awaitScrape _ => 20
  | awaitScreenshot _ _ => 40
  | awaitGenerateObject _ _ => 60
  | awaitCreate _ _ => 80
  | awaitList _ => 100
  end.

Definition stepLabel (p : Pending) : string :=
  match p with
  | awaitScrape _ => "Analyzing website content..."
  | awaitScreenshot _ _ => "Capturing website screenshot..."
  | awaitGenerateObject _ _ => "Running AI analysis..."
  | awaitCreate _ _ => "Saving analysis results..."
  | awaitList _ => "Analysis complete!"
  end.

(** The page shows the stage of every run in flight. *)
Definition tracksStage (sys : System) : Prop :=
  forall run, In run (inflight sys) ->
    progress (world sys) = checkpoint (pending run) /\
    currentStep (world sys) = stepLabel (pending run).

(** Every run in flight works for [u], and the row it is about to write,
    if any, is a row of [u]. *)
Definition runsFor (u : User.t) (sys : System) : Prop :=
  user (world sys) = Some u /\
  forall run, In run (inflight sys) ->
    closure_user run = Some u /\
    match pending run with
    | awaitCreate _ row => WebsiteAnalysis.userId row = User.id u
    | awaitList userId => userId = User.id u
    | _ => True
    end.

(** The store holds what it held in [store], in the same order, followed
    by rows of [u]. *)
Definition grownFrom (store : Store) (u : User.t) (sys : System) : Prop :=
  exists added,
    db (world sys) = (store ++ added)%list /\
    Forall (fun row => WebsiteAnalysis.userId row = User.id u) added.

(** [env] with another screenshot service. *)
Definition withScreenshot (shot : string -> option string) (env : Env) : Env :=
  {| scrape := scrape env;
     screenshot := shot;
     generateObject := generateObject env;
     create_resolves := create_resolves env;
     list_resolves := list_resolves env;
     clock := clock env |}.



(** A blob that is the text of an object without categories. *)
Definition sample_partial_row : WebsiteAnalysis.t :=
  {| WebsiteAnalysis.id := "analysis_1500000000000";
     WebsiteAnalysis.userId := "user_1";
     WebsiteAnalysis.url := "https://legacy.example.com";
     WebsiteAnalysis.timestamp := 1500000000000;
     WebsiteAnalysis.performanceScore := Some 40;
     WebsiteAnalysis.seoScore := Some 50;
     WebsiteAnalysis.accessibilityScore := Some 60;
     WebsiteAnalysis.designScore := Some 70;
     WebsiteAnalysis.uxScore := Some 80;
     WebsiteAnalysis.analysisData := "((((None None) None) ((None None) None)) (None None))";
     WebsiteAnalysis.createdAt := 1500000000000 |}.

(** An analysis that lacks four of the five categories. *)
Definition sample_incomplete_analysis : AnalysisData.t :=
  {| AnalysisData.id := None;
     AnalysisData.url := None;
     AnalysisData.timestamp := None;
     AnalysisData.performance := AnalysisData.performance (sample_analysis 80 60 90 70 50);
     AnalysisData.seo := None;
     AnalysisData.accessibility := None;
     AnalysisData.design := None;
     AnalysisData.ux := None |}.

(** Services that all answer, except the [list] call of the store. *)
Definition sample_env_list_fails : Env :=
  {| scrape := fun _ => Some sample_scraped;
     screenshot := fun _ => Some "https://cdn.example.com/shot.png";
     generateObject := fun _ => Some (sample_analysis 80 60 90 70 50);
     create_resolves := fun _ => true;
     list_resolves := false;
     clock := sample_clock 1700000000000 |}.

(** The row that the pipeline writes for the sample report, and a row with
    the same blob whose columns say something else. *)
Definition sample_stored_row : WebsiteAnalysis.t :=
  {| WebsiteAnalysis.id := "analysis_1700000000000";
     WebsiteAnalysis.userId := "user_1";
     WebsiteAnalysis.url := "https://example.com";
     WebsiteAnalysis.timestamp := 1700000000000;
     WebsiteAnalysis.performanceScore := Some 80;
     WebsiteAnalysis.seoScore := Some 60;
     WebsiteAnalysis.accessibilityScore := Some 90;
     WebsiteAnalysis.designScore := Some 70;
     WebsiteAnalysis.uxScore := Some 50;
     WebsiteAnalysis.analysisData :=
       sample_stringify (sample_report 1700000000000 80 60 90 70 50);
     WebsiteAnalysis.createdAt := 1700000000000 |}.

Definition sample_mismatched_row : WebsiteAnalysis.t :=
  {| WebsiteAnalysis.id := "row_7";
     WebsiteAnalysis.userId := "user_1";
     WebsiteAnalysis.url := "https://elsewhere.example.com";
     WebsiteAnalysis.timestamp := 5;
     WebsiteAnalysis.performanceScore := Some 1;
     WebsiteAnalysis.seoScore := None;
     WebsiteAnalysis.accessibilityScore := Some 3;
     WebsiteAnalysis.designScore := Some 4;
     WebsiteAnalysis.uxScore := Some 5;
     WebsiteAnalysis.analysisData :=
       sample_stringify (sample_report 1700000000000 80 60 90 70 50);
     WebsiteAnalysis.createdAt := 1700000000000 |}.


(* ===================================================================== *)
(** * Properties                                                          *)
(* ===================================================================== *)

(** ** Built-ins *)

Lemma toString_parses (n : Z) :
  NilZero.int_of_string (toString n) = Some (Z.to_int n).
Proof.
  unfold toString. apply NilZero.isi.
  - destruct n as [|p|p]; cbn; try discriminate.
    intros [= H]. now apply (Unsigned.to_uint_nonnil p).
  - destruct n as [|p|p]; cbn; try discriminate.
    intros [= H]. now apply (Unsigned.to_uint_nonnil p).
Qed.

(** Distinct integers have distinct numerals. *)
Lemma toString_inj (n m : Z) : toString n = toString m -> n = m.
Proof.
  intros H. apply DecimalZ.to_int_inj.
  pose proof (toString_parses n) as Hn.
  rewrite H, toString_parses in Hn.
  now injection Hn.
Qed.

Lemma append_inj_r (p s t : string) : p ++ s = p ++ t -> s = t.
Proof.
  induction p as [|c p IH]; cbn; [auto|].
  intros [= H]. auto.
Qed.

Lemma roundHalfUp_spec (q : Q) : roundsHalfUpTo q (roundHalfUp q).
Proof.
  unfold roundsHalfUpTo, roundHalfUp.
  pose proof (Qfloor_le (q + (1 # 2))) as Hle.
  pose proof (Qlt_floor (q + (1 # 2))) as Hlt.
  rewrite inject_Z_plus in Hlt. change (inject_Z 1) with 1%Q in Hlt.
  set (n := inject_Z (Qfloor (q + (1 # 2)))) in *. clearbody n.
  split; lra.
Qed.

(** Rounding half up determines the integer. *)
Lemma roundsHalfUpTo_unique (q : Q) (n m : Z) :
  roundsHalfUpTo q n -> roundsHalfUpTo q m -> n = m.
Proof.
  unfold roundsHalfUpTo. intros [Hn1 Hn2] [Hm1 Hm2].
  assert (H1 : (inject_Z n < inject_Z m + 1)%Q) by lra.
  assert (H2 : (inject_Z m < inject_Z n + 1)%Q) by lra.
  change 1%Q with (inject_Z 1) in H1, H2.
  rewrite <- inject_Z_plus in H1, H2.
  rewrite <- Zlt_Qlt in H1, H2. lia.
Qed.

(** A fifth of an integer, rounded half up, by integer division. *)
Lemma roundHalfUp_fifth (n : Z) : roundHalfUp (inject_Z n / 5) = (2 * n + 5) / 10.
Proof.
  replace ((2 * n + 5) / 10) with ((n * 1 * 2 + 5) / 10) by (f_equal; lia).
  reflexivity.
Qed.

Lemma fifth_roundsHalfUpTo (n : Z) : roundsHalfUpTo (inject_Z n / 5) ((2 * n + 5) / 10).
Proof. rewrite <- roundHalfUp_fifth. apply roundHalfUp_spec. Qed.

(** ** Double arithmetic on the scores of the documented range *)

Lemma sameDouble_eq (x y : double) : sameDouble x y = true -> x = y.
Proof.
  destruct x as [s|s| |s m e], y as [t|t| |t n f]; cbn; try discriminate.
  - intros H. apply Bool.eqb_prop in H. now subst.
  - intros H. apply Bool.eqb_prop in H. now subst.
  - reflexivity.
  - intros H. apply andb_prop in H. destruct H as [H He].
    apply andb_prop in H. destruct H as [Hs Hm].
    apply Bool.eqb_prop in Hs. apply Pos.eqb_eq in Hm. apply Z.eqb_eq in He.
    now subst.
Qed.

Lemma In_upTo (n : nat) (z : Z) : 0 <= z <= Z.of_nat n -> In z (upTo n).
Proof.
  intros H. unfold upTo. apply in_map_iff. exists (Z.to_nat z).
  split; [lia|]. apply in_seq. lia.
Qed.

Lemma forall_upTo (f : Z -> bool) (n : nat) :
  forallb f (upTo n) = true -> forall z, 0 <= z <= Z.of_nat n -> f z = true.
Proof.
  intros H z Hz. rewrite forallb_forall in H. apply H, In_upTo, Hz.
Qed.

Lemma sumsExact_sound (m n : nat) :
  sumsExact m n = true ->
  forall a b, 0 <= a <= Z.of_nat m -> 0 <= b <= Z.of_nat n ->
  double_add (double_of_Z a) (double_of_Z b) = double_of_Z (a + b).
Proof.
  unfold sumsExact. intros H a b Ha Hb.
  apply sameDouble_eq.
  apply (forall_upTo _ n (forall_upTo _ m H a Ha) b Hb).
Qed.

Lemma fifthsRound_sound (n : nat) :
  fifthsRound n = true ->
  forall k, 0 <= k <= Z.of_nat n ->
  Math_round (double_div (double_of_Z k) (double_of_Z 5)) = double_of_Z ((2 * k + 5) / 10).
Proof.
  unfold fifthsRound. intros H k Hk.
  apply sameDouble_eq. apply (forall_upTo _ n H k Hk).
Qed.

(** All 401 x 101 sums of a partial sum of up to four scores and one more
    score are exact. *)
Lemma sums_to_500_are_exact : sumsExact 400 100 = true.
Proof. vm_compute. reflexivity. Qed.

(** For each of the 501 sums of five scores, the rounded double quotient is
    the rounded exact quotient. *)
Lemma fifths_to_500_round : fifthsRound 500 = true.
Proof. vm_compute. reflexivity. Qed.

Lemma double_add_exact (a b : Z) :
  0 <= a <= 400 -> 0 <= b <= 100 ->
  double_add (double_of_Z a) (double_of_Z b) = double_of_Z (a + b).
Proof.
  intros Ha Hb. apply (sumsExact_sound 400 100 sums_to_500_are_exact); cbn; lia.
Qed.

Lemma fifth_rounded (n : Z) :
  0 <= n <= 500 ->
  Math_round (double_div (double_of_Z n) (double_of_Z 5)) = double_of_Z ((2 * n + 5) / 10).
Proof.
  intros Hn. apply (fifthsRound_sound 500 fifths_to_500_round); cbn; lia.
Qed.

(** On five integers of the range 0..100 the expression of lines 385 and
    876 computes what exact arithmetic gives. *)
Lemma overallOf_percentages (p s a d x : Z) :
  inRange p -> inRange s -> inRange a -> inRange d -> inRange x ->
  overallOf (double_of_Z p) (double_of_Z s) (double_of_Z a) (double_of_Z d) (double_of_Z x)
  = double_of_Z ((2 * (p + s + a + d + x) + 5) / 10).
Proof.
  unfold inRange. intros Hp Hs Ha Hd Hx. unfold overallOf.
  rewrite !double_add_exact by lia.
  apply fifth_rounded. lia.
Qed.

Lemma overallScore_of_scores (item : AnalysisResult.t) (p s a d x : Z) :
  scoresOf item = Some (p, s, a, d, x) ->
  overallScore item
  = Some (overallOf (double_of_Z p) (double_of_Z s) (double_of_Z a) (double_of_Z d)
                    (double_of_Z x)).
Proof.
  unfold scoresOf, overallScore.
  destruct (AnalysisResult.performance item); [|discriminate].
  destruct (AnalysisResult.seo item); [|discriminate].
  destruct (AnalysisResult.accessibility item); [|discriminate].
  destruct (AnalysisResult.design item); [|discriminate].
  destruct (AnalysisResult.ux item); [|discriminate].
  now intros [= -> -> -> -> ->].
Qed.

Lemma overallScore_percentages (item : AnalysisResult.t) (p s a d x : Z) :
  scoresOf item = Some (p, s, a, d, x) ->
  inRange p -> inRange s -> inRange a -> inRange d -> inRange x ->
  overallScore item = Some (double_of_Z ((2 * (p + s + a + d + x) + 5) / 10)).
Proof.
  intros Hs Hp Hse Ha Hd Hx.
  rewrite (overallScore_of_scores item p s a d x Hs).
  now rewrite overallOf_percentages.
Qed.

Lemma fifth_within (n lo hi : Z) :
  5 * lo <= n <= 5 * hi -> lo <= (2 * n + 5) / 10 <= hi.
Proof. intros H. Z.div_mod_to_equations. lia. Qed.

(** ** The framed codec inverts *)

Lemma decode_encode_positive (p : positive) (rest : string) :
  decode_positive (encode_positive p ++ rest) = Some (p, rest).
Proof.
  induction p as [q IH|q IH|]; cbn; [now rewrite IH..|reflexivity].
Qed.

Lemma Z_codec_inverts : inverts Z_codec.
Proof.
  intros [|p|p] rest; cbn; [reflexivity|..];
    now rewrite decode_encode_positive.
Qed.

Lemma ascii_codec_inverts : inverts ascii_codec.
Proof. intros c rest. reflexivity. Qed.

Lemma option_codec_inverts {A : Type} (C : Codec A) :
  inverts C -> inverts (option_codec C).
Proof.
  intros H [a|] rest; cbn; [|reflexivity]. now rewrite H.
Qed.

Lemma append_assoc (s1 s2 s3 : string) : (s1 ++ s2) ++ s3 = s1 ++ (s2 ++ s3).
Proof. induction s1 as [|c s1 IH]; cbn; [reflexivity|now rewrite IH]. Qed.

Lemma pair_codec_inverts {A B : Type} (CA : Codec A) (CB : Codec B) :
  inverts CA -> inverts CB -> inverts (pair_codec CA CB).
Proof.
  intros HA HB [a b] rest. cbn. rewrite append_assoc, HA. cbn. now rewrite HB.
Qed.

Lemma decode_n_encode_all {A : Type} (C : Codec A) (l : list A) (rest : string) :
  inverts C -> decode_n C (List.length l) (encode_all C l ++ rest) = Some (l, rest).
Proof.
  intros H. induction l as [|a l IH]; cbn; [reflexivity|].
  now rewrite append_assoc, H, IH.
Qed.

Lemma list_codec_inverts {A : Type} (C : Codec A) :
  inverts C -> inverts (list_codec C).
Proof.
  intros H l rest. unfold list_codec. cbn [encode decode].
  rewrite append_assoc, Z_codec_inverts, Nat2Z.id.
  now apply decode_n_encode_all.
Qed.

Lemma string_codec_inverts : inverts string_codec.
Proof.
  intros s rest. unfold string_codec. cbn [encode decode].
  rewrite (list_codec_inverts ascii_codec ascii_codec_inverts). cbn.
  now rewrite string_of_list_ascii_of_string.
Qed.

Lemma data_codec_inverts : inverts data_codec.
Proof.
  unfold data_codec.
  repeat first [ apply pair_codec_inverts | apply option_codec_inverts
               | apply list_codec_inverts | apply string_codec_inverts
               | apply Z_codec_inverts ].
Qed.

Lemma tuple_of_data_inverts (d : AnalysisData.t) : data_of_tuple (tuple_of_data d) = d.
Proof.
  destruct d as [i u t p s a d x]. unfold tuple_of_data, data_of_tuple. cbn.
  f_equal.
  - destruct p as [[sc [m1 m2 m3 m4] r]|]; [|reflexivity]. cbn.
    unfold Q_of_tuple, tuple_of_Q. cbn.
    now destruct m1, m2, m3, m4.
  - destruct s as [[sc issues r]|]; [|reflexivity]. cbn. do 2 f_equal.
    rewrite map_map. rewrite <- (map_id issues) at 2. apply map_ext.
    intros [[] m []]; reflexivity.
  - destruct a as [[sc vs r]|]; [|reflexivity]. cbn. do 2 f_equal.
    rewrite map_map. rewrite <- (map_id vs) at 2. apply map_ext.
    intros [[] dsc e]; reflexivity.
  - destruct d as [[sc [a1 a2 a3 a4] r]|]; reflexivity.
  - destruct x as [[sc [a1 a2 a3 a4] r]|]; reflexivity.
Qed.

Lemma framed_roundtrip (r : AnalysisResult.t) :
  framed_parse (framed_stringify r) = Some (dataOf r).
Proof.
  unfold framed_parse, framed_stringify.
  pose proof (data_codec_inverts (tuple_of_data (dataOf r)) "") as H.
  assert (Hnil : forall s : string, s ++ "" = s).
  { induction s as [|c s IH]; cbn; [reflexivity|now rewrite IH]. }
  rewrite Hnil in H. rewrite H. now rewrite tuple_of_data_inverts.
Qed.

Lemma framed_platform_inverts : parse_inverts_stringify framed_platform.
Proof.
  intros r d H. change (framed_parse (framed_stringify r) = Some d) in H.
  rewrite framed_roundtrip in H. now injection H.
Qed.

Lemma orZero_Some (v : Z) : orZero (Some v) = v.
Proof.
  unfold orZero. destruct (v =? 0) eqn:E; [|reflexivity].
  apply Z.eqb_eq in E. now subst.
Qed.

Lemma truthy_false_iff (s : string) : truthy s = false <-> s = "".
Proof.
  unfold truthy. rewrite negb_false_iff. apply String.eqb_eq.
Qed.

(** ** The store *)

Lemma insert_desc_In (row x : WebsiteAnalysis.t) (l : list WebsiteAnalysis.t) :
  In x (insert_desc row l) <-> x = row \/ In x l.
Proof.
  induction l as [|y l IH]; cbn.
  - intuition.
  - destruct (WebsiteAnalysis.createdAt y <? WebsiteAnalysis.createdAt row); cbn.
    + intuition.
    + rewrite IH. intuition.
Qed.

Lemma sort_desc_In (x : WebsiteAnalysis.t) (l : list WebsiteAnalysis.t) :
  In x (sort_desc l) <-> In x l.
Proof.
  induction l as [|y l IH]; cbn; [tauto|].
  rewrite insert_desc_In, IH. intuition.
Qed.

Lemma In_firstn {A : Type} (n : nat) (l : list A) (x : A) :
  In x (firstn n l) -> In x l.
Proof.
  revert l. induction n as [|n IH]; intros [|y l]; cbn; try tauto.
  intros [H|H]; [now left | right; now apply IH].
Qed.

(** [list] returns rows of the store, all of the user asked for. *)
Lemma db_list_In (s : Store) (userId : string) (limit : nat) (x : WebsiteAnalysis.t) :
  In x (db_list s userId limit) -> In x s /\ WebsiteAnalysis.userId x = userId.
Proof.
  unfold db_list. intros H.
  apply In_firstn, sort_desc_In, filter_In in H.
  destruct H as [H1 H2]. split; [assumption|]. now apply String.eqb_eq.
Qed.

Lemma db_list_length (s : Store) (userId : string) (limit : nat) :
  (List.length (db_list s userId limit) <= limit)%nat.
Proof. unfold db_list. apply firstn_le_length. Qed.

(** ** Listing after a create *)

Lemma insert_desc_length (row : WebsiteAnalysis.t) (l : list WebsiteAnalysis.t) :
  List.length (insert_desc row l) = S (List.length l).
Proof.
  induction l as [|y l IH]; cbn; [reflexivity|].
  destruct (WebsiteAnalysis.createdAt y <? WebsiteAnalysis.createdAt row); cbn;
    [reflexivity|now rewrite IH].
Qed.

Lemma sort_desc_length (l : list WebsiteAnalysis.t) :
  List.length (sort_desc l) = List.length l.
Proof.
  unfold sort_desc. induction l as [|y l IH]; cbn; [reflexivity|].
  now rewrite insert_desc_length, IH.
Qed.

(** A row just created is listed for its user when the user had fewer rows
    than the limit. *)
Lemma db_list_create (s : Store) (row : WebsiteAnalysis.t) (limit : nat) :
  (List.length (db_list s (WebsiteAnalysis.userId row) limit) < limit)%nat ->
  In row (db_list (db_create s row) (WebsiteAnalysis.userId row) limit).
Proof.
  unfold db_list, db_create. intros Hlen.
  rewrite filter_app. cbn. rewrite String.eqb_refl.
  set (l := filter _ s) in *.
  rewrite length_firstn, sort_desc_length in Hlen.
  rewrite firstn_all2.
  - apply sort_desc_In, in_or_app. right. now left.
  - rewrite sort_desc_length, length_app. cbn. lia.
Qed.

(** ** Effects *)

Lemma toasts_app (l1 l2 : list Effect) :
  toasts (l1 ++ l2) = (toasts l1 ++ toasts l2)%list.
Proof. apply filter_app. Qed.

Lemma parseItem_effects_silent (P : Platform) (item : WebsiteAnalysis.t) :
  toasts (snd (parseItem P item)) = [].
Proof.
  unfold parseItem. now destruct (JSON_parse P (WebsiteAnalysis.analysisData item)).
Qed.

Lemma parse_effects_silent (P : Platform) (analyses : list WebsiteAnalysis.t) :
  toasts (flat_map (fun item => snd (parseItem P item)) analyses) = [].
Proof.
  induction analyses as [|item l IH]; cbn; [reflexivity|].
  now rewrite toasts_app, parseItem_effects_silent, IH.
Qed.

(** ** Decoding *)

Lemma spread_dataOf (i u : string) (t : Z) (r : AnalysisResult.t) :
  spread i u t (dataOf r) = r.
Proof. now destruct r. Qed.

Lemma fallback_scores (item : WebsiteAnalysis.t) (scores : Z * Z * Z * Z * Z) :
  rowScores item = Some scores -> scoresOf (fallback item) = Some scores.
Proof.
  unfold rowScores, scoresOf, fallback. cbn.
  destruct (WebsiteAnalysis.performanceScore item); [|discriminate].
  destruct (WebsiteAnalysis.seoScore item); [|discriminate].
  destruct (WebsiteAnalysis.accessibilityScore item); [|discriminate].
  destruct (WebsiteAnalysis.designScore item); [|discriminate].
  destruct (WebsiteAnalysis.uxScore item); [|discriminate].
  intros [= <-]. now rewrite !orZero_Some.
Qed.

Lemma createRow_Some (P : Platform) (clk : Clock) (user : option User.t)
  (r : AnalysisResult.t) (row : WebsiteAnalysis.t) :
  createRow P clk user r = Some row ->
  exists u scores,
    user = Some u /\ scoresOf r = Some scores /\ rowScores row = Some scores /\
    WebsiteAnalysis.id row = AnalysisResult.id r /\
    WebsiteAnalysis.userId row = User.id u /\
    WebsiteAnalysis.url row = AnalysisResult.url r /\
    WebsiteAnalysis.timestamp row = AnalysisResult.timestamp r /\
    WebsiteAnalysis.analysisData row = JSON_stringify P r /\
    WebsiteAnalysis.createdAt row = now_createdAt clk.
Proof.
  unfold createRow, scoresOf.
  destruct user as [u|]; [|discriminate].
  destruct (AnalysisResult.performance r) as [p|]; [|discriminate].
  destruct (AnalysisResult.seo r) as [s|]; [|discriminate].
  destruct (AnalysisResult.accessibility r) as [a|]; [|discriminate].
  destruct (AnalysisResult.design r) as [d|]; [|discriminate].
  destruct (AnalysisResult.ux r) as [x|]; [|discriminate].
  intros [= <-]. exists u. eexists. cbn. repeat split; reflexivity.
Qed.

(** ** The run, outcome by outcome *)

Arguments createRow : simpl never.
Arguments assemble : simpl never.
Arguments analysisPrompt : simpl never.
Arguments db_list : simpl never.
Arguments db_create : simpl never.
Arguments parsedHistory : simpl never.

Ltac unfold_run := cbn [run_to_end resume respond pending closure_user].

Ltac close_run :=
  cbn; unfold idle; cbn; rewrite ?toasts_app, ?parse_effects_silent; cbn;
  rewrite ?app_nil_r, <- ?app_assoc; cbn; auto 12.

Lemma analyzeWebsite_refused (P : Platform) (env : Env) (w : World) :
  outcome P env w = refused ->
  analyzeWebsite P env w = emit [toast_error "Please enter a valid URL"] w.
Proof.
  unfold outcome, analyzeWebsite, start.
  destruct (validate P (url w)) as [validUrl|]; [|reflexivity].
  destruct (scrape env validUrl); [|discriminate].
  destruct (screenshot env validUrl); [|discriminate].
  destruct (generateObject env _); [|discriminate].
  destruct (createRow P (clock env) (user w) _) as [row|]; [|discriminate].
  destruct (create_resolves env row); discriminate.
Qed.

Lemma analyzeWebsite_failed (P : Platform) (env : Env) (w : World) (stage : Stage) :
  outcome P env w = failed stage ->
  let w' := analyzeWebsite P env w in
  db w' = db w /\ result w' = None /\ idle w' /\
  user w' = user w /\ url w' = url w /\ history w' = history w /\
  toasts (log w')
  = (toasts (log w) ++ [toast_error "Analysis failed. Please try again."])%list.
Proof.
  unfold outcome, analyzeWebsite, start.
  destruct (validate P (url w)) as [v|] eqn:Hv; [|discriminate].
  unfold_run.
  destruct (scrape env v) as [scraped|] eqn:Hs; [|intros _; close_run].
  unfold_run.
  destruct (screenshot env v) as [shot|] eqn:Hc; [|intros _; close_run].
  unfold_run.
  destruct (generateObject env _) as [a|] eqn:Hg; [|intros _; close_run].
  unfold_run.
  destruct (createRow P (clock env) (user w) _) as [row|] eqn:Hr; [|intros _; close_run].
  unfold_run.
  destruct (create_resolves env row) eqn:Hcr; [discriminate|].
  intros _; close_run.
Qed.

Lemma analyzeWebsite_completed (P : Platform) (env : Env) (w : World)
  (validUrl : string) (analysis : AnalysisData.t) (row : WebsiteAnalysis.t) :
  outcome P env w = completed validUrl analysis row ->
  let w' := analyzeWebsite P env w in
  let r := assemble (clock env) validUrl analysis in
  validate P (url w) = Some validUrl /\
  createRow P (clock env) (user w) r = Some row /\
  create_resolves env row = true /\
  db w' = db_create (db w) row /\
  result w' = Some r /\
  idle w' /\
  history w' =
    (if list_resolves env
     then parsedHistory P (db_list (db_create (db w) row) (WebsiteAnalysis.userId row) 10)
     else history w) /\
  toasts (log w') =
    (toasts (log w)
     ++ (if list_resolves env then [] else [toast_error "Failed to load analysis history"])
     ++ [toast_success "Website analysis completed!"])%list.
Proof.
  unfold outcome, analyzeWebsite, start.
  destruct (validate P (url w)) as [v|] eqn:Hv; [|discriminate].
  unfold_run.
  destruct (scrape env v) as [scraped|] eqn:Hs; [|discriminate].
  unfold_run.
  destruct (screenshot env v) as [shot|] eqn:Hc; [|discriminate].
  unfold_run.
  destruct (generateObject env _) as [a|] eqn:Hg; [|discriminate].
  unfold_run.
  destruct (createRow P (clock env) (user w) _) as [row'|] eqn:Hr; [|discriminate].
  unfold_run.
  destruct (create_resolves env row') eqn:Hcr; [|discriminate].
  intros [= <- <- <-].
  destruct (createRow_Some _ _ _ _ _ Hr) as (u & scores & Hu & _ & _ & _ & Huid & _).
  rewrite Hu in *. rewrite Huid.
  unfold_run.
  destruct (list_resolves env) eqn:Hl; unfold_run.
  - unfold loadHistory_resolved. close_run.
  - close_run.
Qed.

Lemma start_keeps (P : Platform) (w : World) :
  match start P w with
  | (w', Some _) => analyzing w' = true
  | (w', None) =>
      analyzing w' = analyzing w /\ progress w' = progress w /\
      currentStep w' = currentStep w
  end.
Proof.
  unfold start. destruct (validate P (url w)); cbn; auto.
Qed.

Lemma resume_keeps (P : Platform) (clk : Clock) (run : Run) (resp : Response) (w : World) :
  analyzing w = true ->
  match resume P clk run resp w with
  | (w', Some _) => analyzing w' = true
  | (w', None) => idle w'
  end.
Proof.
  intros Ha. unfold resume, idle.
  destruct (pending run) as [v|v scraped|v prompt|r row|userId], resp; cbn; auto;
    try (destruct (createRow P clk (closure_user run) _); cbn; auto);
    try (destruct (closure_user run); cbn; auto).
Qed.

Lemma step_singleFlight (P : Platform) (ev : Event) (sys : System) :
  singleFlight sys -> singleFlight (step P ev sys).
Proof.
  unfold singleFlight. intros Hinv. destruct sys as [w runs]. unfold step.
  cbn [world inflight] in *.
  destruct ev as [value| | |index|k clk resp|resolved].
  - destruct (rendered w && negb (analyzing w)); [|assumption].
    destruct Hinv as [[Hr Hi]|(run & Hr & Ha)]; cbn in *; [left|right]; eauto.
  - destruct (rendered w && negb (analyzing w)) eqn:E; [|assumption].
    apply andb_true_iff in E. destruct E as [_ E]. apply negb_true_iff in E.
    destruct Hinv as [[Hr Hi]|(run & Hr & Ha)]; cbn in *; [|congruence].
    subst runs. unfold invoke. cbn [world inflight].
    pose proof (start_keeps P w) as Hs.
    destruct (start P w) as [w' [run|]]; cbn.
    + right. eauto.
    + left. unfold idle in *. destruct Hs as (-> & -> & ->). auto.
  - destruct (rendered w && negb (analyzing w || negb (truthy (trim (url w))))) eqn:E;
      [|assumption].
    apply andb_true_iff in E. destruct E as [_ E]. apply negb_true_iff in E.
    apply orb_false_iff in E. destruct E as [E _].
    destruct Hinv as [[Hr Hi]|(run & Hr & Ha)]; cbn in *; [|congruence].
    subst runs. unfold invoke. cbn [world inflight].
    pose proof (start_keeps P w) as Hs.
    destruct (start P w) as [w' [run|]]; cbn.
    + right. eauto.
    + left. unfold idle in *. destruct Hs as (-> & -> & ->). auto.
  - destruct (rendered w); [|assumption].
    destruct (nth_error (history w) index); [|assumption].
    destruct Hinv as [[Hr Hi]|(run & Hr & Ha)]; cbn in *; [left|right]; eauto.
  - destruct Hinv as [[Hr Hi]|(run & Hr & Ha)]; cbn in *; subst runs.
    + destruct k; cbn; left; auto.
    + destruct k as [|k]; cbn.
      * pose proof (resume_keeps P clk run resp w Ha) as Hk.
        destruct (resume P clk run resp w) as [w' [run'|]]; cbn; [right|left]; eauto.
      * destruct k; cbn; right; eauto.
  - destruct (user w); [|assumption].
    destruct Hinv as [[Hr Hi]|(run & Hr & Ha)], resolved; cbn in *; [left|left|right|right];
      eauto.
Qed.

Lemma steps_singleFlight (P : Platform) (evs : list Event) (sys : System) :
  singleFlight sys -> singleFlight (steps P evs sys).
Proof.
  unfold steps. revert sys.
  induction evs as [|ev evs IH]; intros sys H; cbn; [assumption|].
  apply IH. now apply step_singleFlight.
Qed.

Lemma initial_singleFlight (u : User.t) (store : Store) (history : list AnalysisResult.t) :
  singleFlight (initial u store history).
Proof. left. cbn. unfold idle. cbn. auto. Qed.

Lemma resume_awaitsLeft (P : Platform) (env : Env) (run run' : Run) (w w' : World) :
  resume P (clock env) run (respond env run) w = (w', Some run') ->
  (S (awaitsLeft (pending run')) = awaitsLeft (pending run))%nat.
Proof.
  unfold resume, respond.
  destruct (pending run) as [v|v scraped|v prompt|r row|userId]; cbn.
  - destruct (scrape env v); intros [= <- <-]; reflexivity.
  - destruct (screenshot env v); intros [= <- <-]; reflexivity.
  - destruct (generateObject env prompt); [|discriminate].
    destruct (createRow P (clock env) (closure_user run) _); intros [= <- <-]; reflexivity.
  - destruct (create_resolves env row); [|discriminate].
    destruct (closure_user run); intros [= <- <-]; reflexivity.
  - destruct (list_resolves env); discriminate.
Qed.

Lemma run_to_end_is_a_path (P : Platform) (env : Env) (fuel : nat) :
  forall (run : Run) (w : World),
    (awaitsLeft (pending run) <= fuel)%nat ->
    exists evs,
      steps P evs {| world := w; inflight := [run] |}
      = {| world := run_to_end fuel P env run w; inflight := [] |}.
Proof.
  induction fuel as [|fuel IH]; intros run w Hfuel.
  - destruct (pending run); cbn in Hfuel; lia.
  - cbn [run_to_end].
    destruct (resume P (clock env) run (respond env run) w) as [w' [run'|]] eqn:Hres.
    + apply resume_awaitsLeft in Hres as Hleft.
      destruct (IH run' w') as [evs Hevs]; [lia|].
      exists (settled 0 (clock env) (respond env run) :: evs).
      cbn. rewrite Hres. exact Hevs.
    + exists [settled 0 (clock env) (respond env run)].
      cbn. now rewrite Hres.
Qed.

(** A whole run is one path of the event system: the Enter key, then the
    promises settling one after the other. *)
Lemma analyzeWebsite_is_a_path (P : Platform) (env : Env) (w : World) :
  rendered w = true -> analyzing w = false ->
  exists evs,
    steps P evs {| world := w; inflight := [] |}
    = {| world := analyzeWebsite P env w; inflight := [] |}.
Proof.
  intros Hr Ha. unfold analyzeWebsite.
  destruct (start P w) as [w1 [run|]] eqn:Hst.
  - destruct (run_to_end_is_a_path P env 5 run w1) as [evs Hevs].
    { unfold start in Hst. destruct (validate P (url w)); inversion Hst. cbn. lia. }
    exists (onKeyPress_Enter :: evs).
    cbn. rewrite Hr, Ha. cbn. unfold invoke. cbn. rewrite Hst. exact Hevs.
  - exists [onKeyPress_Enter].
    cbn. rewrite Hr, Ha. cbn. unfold invoke. cbn. now rewrite Hst.
Qed.

(* ===================================================================== *)
(** * Properties of the specification                                     *)
(* ===================================================================== *)

(** ** Scores are persisted as the analyzer returned them *)

Lemma spread_scores (i u : string) (t : Z) (data : AnalysisData.t) :
  scoresOf (spread i u t data)
  = match AnalysisData.performance data, AnalysisData.seo data,
          AnalysisData.accessibility data, AnalysisData.design data,
          AnalysisData.ux data with
    | Some p, Some s, Some a, Some d, Some x =>
        Some (Performance.score p, Seo.score s, Accessibility.score a,
              Design.score d, Ux.score x)
    | _, _, _, _, _ => None
    end.
Proof. reflexivity. Qed.

(** The store changes only in a run that completes. *)
Lemma analyzeWebsite_db (P : Platform) (env : Env) (w : World) :
  db (analyzeWebsite P env w)
  = match outcome P env w with
    | completed _ _ row => db_create (db w) row
    | _ => db w
    end.
Proof.
  destruct (outcome P env w) as [|stage|validUrl analysis row] eqn:Hout.
  - now rewrite (analyzeWebsite_refused P env w Hout).
  - apply (analyzeWebsite_failed P env w stage Hout).
  - apply (analyzeWebsite_completed P env w _ _ _ Hout).
Qed.

(** C1, counterexample.  The analyzer answers with a performance score of
    150; the run completes, and the row it persists carries 150, in the
    denormalized column and in the encoded report alike.  The score is
    neither clamped nor is the report rejected. *)
Lemma out_of_range_score_is_persisted :
  let analysis := sample_analysis 150 60 90 70 50 in
  let w' := analyzeWebsite sample_platform
              (sample_env analysis (sample_clock 1700000000000))
              (sample_world "example.com" []) in
  exists row r,
    db w' = [row] /\
    result w' = Some r /\
    WebsiteAnalysis.analysisData row = JSON_stringify sample_platform r /\
    scoresOf r = Some (150, 60, 90, 70, 50) /\
    rowScores row = Some (150, 60, 90, 70, 50) /\
    ~ inRange 150.
Proof.
  vm_compute. do 2 eexists. repeat split; try reflexivity.
  intros [_ H]. now apply H.
Qed.

(** C1, as it holds of the code.  Whenever a run changes the store, it has
    added exactly one row; the report in that row has all five categories,
    and its five scores, in the encoded report and in the denormalized
    columns alike, are the scores the analyzer returned, unchanged.  No
    clamping and no range check is applied: the persisted scores lie in
    [0,100] exactly when the analyzer's scores do. *)
Theorem persisted_scores_are_the_analyzers (P : Platform) (env : Env) (w : World) :
  let w' := analyzeWebsite P env w in
  db w' <> db w ->
  exists validUrl analysis row p s a d x,
    outcome P env w = completed validUrl analysis row /\
    db w' = db_create (db w) row /\
    AnalysisData.performance analysis = Some p /\
    AnalysisData.seo analysis = Some s /\
    AnalysisData.accessibility analysis = Some a /\
    AnalysisData.design analysis = Some d /\
    AnalysisData.ux analysis = Some x /\
    let r := assemble (clock env) validUrl analysis in
    let scores := (Performance.score p, Seo.score s, Accessibility.score a,
                   Design.score d, Ux.score x) in
    WebsiteAnalysis.analysisData row = JSON_stringify P r /\
    scoresOf r = Some scores /\
    rowScores row = Some scores /\
    (allInRange scores <->
     inRange (Performance.score p) /\ inRange (Seo.score s) /\
     inRange (Accessibility.score a) /\ inRange (Design.score d) /\
     inRange (Ux.score x)).
Proof.
  intros w' Hchanged. unfold w' in Hchanged. rewrite analyzeWebsite_db in Hchanged.
  destruct (outcome P env w) as [|stage|validUrl analysis row] eqn:Hout;
    try contradiction.
  destruct (analyzeWebsite_completed P env w validUrl analysis row Hout)
    as (_ & Hrow & _ & Hdb & _).
  destruct (createRow_Some _ _ _ _ _ Hrow)
    as (u & scores & _ & Hsc & Hrs & _ & _ & _ & _ & Hblob & _).
  assert (Hsc' := Hsc).
  unfold assemble in Hsc. rewrite spread_scores in Hsc.
  destruct (AnalysisData.performance analysis) as [p|] eqn:Hp; [|discriminate].
  destruct (AnalysisData.seo analysis) as [s|] eqn:Hs; [|discriminate].
  destruct (AnalysisData.accessibility analysis) as [a|] eqn:Ha; [|discriminate].
  destruct (AnalysisData.design analysis) as [d|] eqn:Hd; [|discriminate].
  destruct (AnalysisData.ux analysis) as [x|] eqn:Hx; [|discriminate].
  injection Hsc as Hsc. subst scores.
  exists validUrl, analysis, row, p, s, a, d, x.
  repeat split; try assumption; try reflexivity;
    unfold allInRange, inRange in *; intuition lia.
Qed.

(** The hypothesis of [persisted_scores_are_the_analyzers] holds of a run
    that completes. *)
Lemma persisted_scores_witness :
  let env := sample_env (sample_analysis 80 60 90 70 50) (sample_clock 1700000000000) in
  let w := sample_world "example.com" [] in
  db (analyzeWebsite sample_platform env w) <> db w /\
  exists validUrl analysis row,
    outcome sample_platform env w = completed validUrl analysis row.
Proof.
  split; [vm_compute; discriminate|].
  destruct (persisted_scores_are_the_analyzers sample_platform
              (sample_env (sample_analysis 80 60 90 70 50) (sample_clock 1700000000000))
              (sample_world "example.com" []))
    as (validUrl & analysis & row & _ & _ & _ & _ & _ & Hout & _).
  - vm_compute. discriminate.
  - exists validUrl, analysis, row. exact Hout.
Defined.

(** ** Stored reports read back *)

(** A run from end to end: "example.com" is analysed as
    "https://example.com", the report is persisted under that URL, and it
    is the first entry of the history that the run then loads. *)
Example end_to_end :
  let w' := analyzeWebsite sample_platform
              (sample_env (sample_analysis 80 60 90 70 50) (sample_clock 1700000000000))
              (sample_world "example.com" [sample_corrupt_row]) in
  result w' = Some (sample_report 1700000000000 80 60 90 70 50) /\
  map WebsiteAnalysis.url (db w') = ["https://old.example.com"; "https://example.com"] /\
  map AnalysisResult.url (history w') = ["https://example.com"; "https://old.example.com"] /\
  hd_error (history w') = result w' /\
  toasts (log w') = [toast_success "Website analysis completed!"].
Proof. vm_compute. repeat split. Qed.

(** C2.  Take a platform whose [JSON.parse] reads back what
    [JSON.stringify] wrote, and a run that completes: it assembles the
    report [r] and writes [row] via [create], the blob of [row] being the
    encoded [r].  Let [entry] be what [loadHistory] decodes from [row].
    Then wherever a later [list] returns [row], the decoded history holds
    [entry]; this is so for the listing that the run itself makes, when it
    resolves and the user had fewer than ten rows.  The entry has the id,
    the url, the timestamp and the five category scores of [r]; and if the
    blob is well formed, that is, if it parses, the entry is [r]. *)
Theorem created_report_decodes_to_itself (P : Platform) (env : Env) (w : World)
  (validUrl : string) (analysis : AnalysisData.t) (row : WebsiteAnalysis.t) :
  parse_inverts_stringify P ->
  outcome P env w = completed validUrl analysis row ->
  let w' := analyzeWebsite P env w in
  let entry := fst (parseItem P row) in
  exists r,
    result w' = Some r /\
    In row (db w') /\
    WebsiteAnalysis.analysisData row = JSON_stringify P r /\
    (forall userId limit,
        In row (db_list (db w') userId limit) ->
        In entry (parsedHistory P (db_list (db w') userId limit))) /\
    (list_resolves env = true ->
     (List.length (db_list (db w) (WebsiteAnalysis.userId row) 10) < 10)%nat ->
     In entry (history w')) /\
    AnalysisResult.id entry = AnalysisResult.id r /\
    AnalysisResult.url entry = AnalysisResult.url r /\
    AnalysisResult.timestamp entry = AnalysisResult.timestamp r /\
    scoresOf entry = scoresOf r /\
    (JSON_parse P (WebsiteAnalysis.analysisData row) <> None -> entry = r).
Proof.
  intros Hlaw Hout w' entry.
  destruct (analyzeWebsite_completed P env w validUrl analysis row Hout)
    as (_ & Hrow & _ & Hdb & Hres & _ & Hhist & _).
  fold w' in Hdb, Hres, Hhist.
  set (r := assemble (clock env) validUrl analysis) in *.
  destruct (createRow_Some _ _ _ _ _ Hrow)
    as (u & scores & _ & Hsc & Hrs & Hid & _ & Hurl & Hts & Hblob & _).
  assert (Hin : forall l, In row l -> In entry (parsedHistory P l)).
  { intros l Hl. unfold parsedHistory.
    apply (in_map (fun item => fst (parseItem P item))) in Hl. exact Hl. }
  assert (Hentry : (JSON_parse P (WebsiteAnalysis.analysisData row) <> None /\ entry = r) \/
                   (JSON_parse P (WebsiteAnalysis.analysisData row) = None /\
                    entry = fallback row)).
  { unfold entry, parseItem.
    destruct (JSON_parse P (WebsiteAnalysis.analysisData row)) as [d|] eqn:Hp.
    - left. split; [discriminate|]. rewrite Hblob in Hp. apply Hlaw in Hp. subst d.
      cbn. apply spread_dataOf.
    - right. split; reflexivity. }
  exists r. split; [exact Hres|].
  split; [rewrite Hdb; unfold db_create; apply in_or_app; right; now left|].
  split; [exact Hblob|].
  split; [intros userId limit; apply Hin|].
  split.
  { intros Hl Hlen. rewrite Hhist, Hl, <- Hdb. apply Hin. rewrite Hdb.
    now apply db_list_create. }
  destruct Hentry as [[_ ->]|[Hnone ->]].
  - repeat split; reflexivity.
  - cbn [fallback AnalysisResult.id AnalysisResult.url AnalysisResult.timestamp].
    repeat split; try assumption.
    + rewrite Hsc. now apply fallback_scores.
    + intros H. contradiction.
Qed.

(** The hypotheses of [created_report_decodes_to_itself] hold of a run on
    [framed_platform] that analyses "example.com" for a user with one
    stored row: the row it creates is listed, its blob parses, and the
    entry decoded from it is the report, which the reloaded history
    holds. *)
Lemma created_report_decodes_witness :
  let env := sample_env (sample_analysis 80 60 90 70 50) (sample_clock 1700000000000) in
  let w := sample_world "example.com" [sample_corrupt_row] in
  let r := sample_report 1700000000000 80 60 90 70 50 in
  parse_inverts_stringify framed_platform /\
  exists row,
    outcome framed_platform env w
    = completed "https://example.com" (sample_analysis 80 60 90 70 50) row /\
    In row (db_list (db (analyzeWebsite framed_platform env w)) "user_1" 10) /\
    JSON_parse framed_platform (WebsiteAnalysis.analysisData row) <> None /\
    list_resolves env = true /\
    (List.length (db_list (db w) (WebsiteAnalysis.userId row) 10) < 10)%nat /\
    fst (parseItem framed_platform row) = r /\
    In r (history (analyzeWebsite framed_platform env w)).
Proof.
  split; [exact framed_platform_inverts|].
  eexists. split; [vm_compute; reflexivity|].
  split; [vm_compute; left; reflexivity|].
  split; [vm_compute; discriminate|].
  split; [reflexivity|].
  split; [vm_compute; lia|].
  destruct (created_report_decodes_to_itself framed_platform
              (sample_env (sample_analysis 80 60 90 70 50) (sample_clock 1700000000000))
              (sample_world "example.com" [sample_corrupt_row])
              "https://example.com" (sample_analysis 80 60 90 70 50) _
              framed_platform_inverts eq_refl)
    as (r & Hres & _ & _ & _ & Hhist & _ & _ & _ & _ & Hentry).
  assert (Hr : r = sample_report 1700000000000 80 60 90 70 50).
  { vm_compute in Hres. injection Hres as <-. vm_compute. reflexivity. }
  rewrite <- Hr.
  assert (He := Hentry ltac:(vm_compute; discriminate)).
  split; [exact He|].
  rewrite <- He. apply Hhist; [reflexivity|vm_compute; lia].
Defined.

(** What [created_report_decodes_to_itself] assumes of the platform is
    needed.  With a parser that accepts the blob and returns another
    object, the run completes and the blob parses, yet the decoded entry
    has another id and no scores. *)
Example decoding_relies_on_the_parser :
  let env := sample_env (sample_analysis 80 60 90 70 50) (sample_clock 1700000000000) in
  let w := sample_world "example.com" [] in
  exists row,
    outcome sample_forgetful_platform env w
    = completed "https://example.com" (sample_analysis 80 60 90 70 50) row /\
    result (analyzeWebsite sample_forgetful_platform env w)
    = Some (sample_report 1700000000000 80 60 90 70 50) /\
    JSON_parse sample_forgetful_platform (WebsiteAnalysis.analysisData row) <> None /\
    AnalysisResult.id (fst (parseItem sample_forgetful_platform row)) = "analysis_0" /\
    scoresOf (fst (parseItem sample_forgetful_platform row)) = None /\
    scoresOf (sample_report 1700000000000 80 60 90 70 50) = Some (80, 60, 90, 70, 50).
Proof.
  eexists. split; [vm_compute; reflexivity|].
  split; [vm_compute; reflexivity|].
  split; [discriminate|].
  split; [reflexivity|]. split; reflexivity.
Qed.

(** C3.  Let the blob of a stored row fail to parse while its five
    denormalized scores are present.  Decoding the row raises nothing: it
    yields the entry with the row's id, url and timestamp, the five
    denormalized scores, zeroed detail bundles and empty lists, and writes
    one line to the console.  A listing that holds such a row still yields
    one entry per row, the synthesized entry among them, and shows no
    notice to the user. *)
Theorem corrupt_blob_falls_back_to_scores (P : Platform) (item : WebsiteAnalysis.t)
  (scores : Z * Z * Z * Z * Z) :
  JSON_parse P (WebsiteAnalysis.analysisData item) = None ->
  rowScores item = Some scores ->
  parseItem P item
  = (bareEntry (WebsiteAnalysis.id item) (WebsiteAnalysis.url item)
               (WebsiteAnalysis.timestamp item) scores,
     [console_error "Failed to parse analysis data:"]) /\
  forall (analyses : list WebsiteAnalysis.t) (w : World),
    In item analyses ->
    let w' := loadHistory_resolved P analyses w in
    In (bareEntry (WebsiteAnalysis.id item) (WebsiteAnalysis.url item)
                  (WebsiteAnalysis.timestamp item) scores) (history w') /\
    List.length (history w') = List.length analyses /\
    toasts (log w') = toasts (log w).
Proof.
  intros Hparse Hscores.
  assert (Hitem : parseItem P item
                  = (bareEntry (WebsiteAnalysis.id item) (WebsiteAnalysis.url item)
                       (WebsiteAnalysis.timestamp item) scores,
                     [console_error "Failed to parse analysis data:"])).
  { unfold parseItem. rewrite Hparse. unfold fallback, rowScores in *.
    destruct (WebsiteAnalysis.performanceScore item) as [p|]; [|discriminate].
    destruct (WebsiteAnalysis.seoScore item) as [s|]; [|discriminate].
    destruct (WebsiteAnalysis.accessibilityScore item) as [a|]; [|discriminate].
    destruct (WebsiteAnalysis.designScore item) as [d|]; [|discriminate].
    destruct (WebsiteAnalysis.uxScore item) as [x|]; [|discriminate].
    injection Hscores as <-. rewrite !orZero_Some. reflexivity. }
  split; [exact Hitem|].
  intros analyses w Hin w'. unfold w', loadHistory_resolved. cbn.
  repeat split.
  - unfold parsedHistory.
    apply (in_map (fun i => fst (parseItem P i))) in Hin.
    now rewrite Hitem in Hin.
  - unfold parsedHistory. apply length_map.
  - now rewrite toasts_app, parse_effects_silent, app_nil_r.
Qed.

(** The hypotheses of [corrupt_blob_falls_back_to_scores] hold of the
    sample row with a truncated blob. *)
Lemma corrupt_blob_witness :
  JSON_parse sample_platform (WebsiteAnalysis.analysisData sample_corrupt_row) = None /\
  rowScores sample_corrupt_row = Some (55, 0, 65, 75, 85) /\
  fst (parseItem sample_platform sample_corrupt_row)
  = bareEntry "analysis_1600000000000" "https://old.example.com" 1600000000000
              (55, 0, 65, 75, 85).
Proof.
  split; [vm_compute; reflexivity|]. split; [reflexivity|].
  apply (f_equal fst
           (proj1 (corrupt_blob_falls_back_to_scores sample_platform sample_corrupt_row
                     (55, 0, 65, 75, 85) eq_refl eq_refl))).
Defined.

(** ** Aggregation *)

(** C4, counterexample.  For an entry with the scores
    (5629499534213122, 0, 0, 0, 0), each of them a double, the mean is
    1125899906842624.4, which rounds to 1125899906842624.  The division
    of line 876 rounds the quotient to the nearest double, which is
    1125899906842624.5, and [Math.round] takes that to
    1125899906842625: the overall score is not the rounded mean. *)
Lemma overall_is_not_always_the_rounded_mean :
  let scores := (5629499534213122, 0, 0, 0, 0) in
  let item := bareEntry "analysis_1" "https://example.com" 1 scores in
  scoresOf item = Some scores /\
  overallScore item = Some (double_of_Z 1125899906842625) /\
  roundsHalfUpTo (mean5 scores) 1125899906842624 /\
  ~ (exists overall,
        overallScore item = Some (double_of_Z overall) /\
        roundsHalfUpTo (mean5 scores) overall).
Proof.
  cbv zeta.
  assert (Hmean : roundsHalfUpTo (mean5 (5629499534213122, 0, 0, 0, 0)) 1125899906842624).
  { unfold roundsHalfUpTo, mean5, Qle, Qlt. cbn. lia. }
  split; [reflexivity|]. split; [vm_compute; reflexivity|]. split; [exact Hmean|].
  intros (overall & Hov & Hround).
  rewrite (roundsHalfUpTo_unique _ _ _ Hround Hmean) in Hov.
  vm_compute in Hov. discriminate.
Qed.

(** C4, as the code has it.  For every entry whose five category scores
    are integers from 0 to 100, the overall score computed at lines 385
    and 876 is the arithmetic mean of the five scores rounded to the
    nearest integer, a half rounding up.  Scores (80,60,90,70,50) give 70
    and scores (0,0,0,0,0) give 0. *)
Theorem overall_of_percentages_is_mean_rounded_half_up :
  (forall (item : AnalysisResult.t) (scores : Z * Z * Z * Z * Z),
      scoresOf item = Some scores ->
      allInRange scores ->
      exists overall,
        overallScore item = Some (double_of_Z overall) /\
        roundsHalfUpTo (mean5 scores) overall) /\
  overallScore (bareEntry "analysis_1" "https://example.com" 1 (80, 60, 90, 70, 50))
  = Some (double_of_Z 70) /\
  overallScore (bareEntry "analysis_2" "https://example.com" 2 (0, 0, 0, 0, 0))
  = Some (double_of_Z 0).
Proof.
  split; [|split; vm_compute; reflexivity].
  intros item [[[[p s] a] d] x] Hs (Hp & Hse & Ha & Hd & Hx).
  exists ((2 * (p + s + a + d + x) + 5) / 10).
  split; [now apply overallScore_percentages|].
  apply fifth_roundsHalfUpTo.
Qed.

(** The hypotheses of [overall_of_percentages_is_mean_rounded_half_up] hold
    of a report whose mean, 70.2, is not an integer. *)
Lemma overall_witness :
  scoresOf (sample_report 1700000000000 81 60 90 70 50) = Some (81, 60, 90, 70, 50) /\
  allInRange (81, 60, 90, 70, 50) /\
  exists overall,
    overallScore (sample_report 1700000000000 81 60 90 70 50)
    = Some (double_of_Z overall) /\
    roundsHalfUpTo (mean5 (81, 60, 90, 70, 50)) overall.
Proof.
  split; [reflexivity|].
  split; [unfold allInRange, inRange; lia|].
  apply (proj1 overall_of_percentages_is_mean_rounded_half_up
           (sample_report 1700000000000 81 60 90 70 50) (81, 60, 90, 70, 50)).
  - reflexivity.
  - unfold allInRange, inRange. lia.
Defined.

(** The expression of lines 385 and 876 on numbers that are not integers,
    which the analyzer's schema admits.  A mean of exactly one half goes
    up, also below zero, where the zero that results is negative.  For
    the scores 70.8, 9.5, 52.4, 12.6 and 7.2 the overall score is 30: the
    decimal figures have the mean 30.5, but the doubles they denote add up
    to less than 152.5. *)
Example overall_of_fractional_scores :
  overallOf (tenths 25) (double_of_Z 0) (double_of_Z 0) (double_of_Z 0) (double_of_Z 0)
  = double_of_Z 1 /\
  overallOf (tenths (-25)) (double_of_Z 0) (double_of_Z 0) (double_of_Z 0) (double_of_Z 0)
  = S754_zero true /\
  overallOf (tenths (-75)) (double_of_Z 0) (double_of_Z 0) (double_of_Z 0) (double_of_Z 0)
  = double_of_Z (-1) /\
  overallOf (tenths 708) (tenths 95) (tenths 524) (tenths 126) (tenths 72)
  = double_of_Z 30 /\
  roundsHalfUpTo (((708 # 10) + (95 # 10) + (524 # 10) + (126 # 10) + (72 # 10)) / 5) 31.
Proof.
  repeat split; try (vm_compute; reflexivity); unfold Qle, Qlt; cbn; lia.
Qed.

Lemma bestCategory_nonempty (item : AnalysisResult.t) (history : list AnalysisResult.t) :
  bestCategory (item :: history) = "Design".
Proof. reflexivity. Qed.

(** C5, the code at a failing input.  For a window of one entry that
    scores 90 in performance and 10 in every other category, the category
    with the highest mean is performance, yet the quick stats show
    "Design": the cell is a constant, no category is compared. *)
Theorem bestCategory_is_a_constant :
  let history := [bareEntry "analysis_1" "https://example.com" 1 (90, 10, 10, 10, 10)] in
  bestCategory history = "Design" /\
  spec_bestCategory history = cat_performance /\
  categoryLabel (spec_bestCategory history) = "Performance" /\
  (spec_categoryMean cat_design history < spec_categoryMean cat_performance history)%Q.
Proof. cbv zeta. repeat split. Qed.

(** ** Failure of a run *)

Lemma outcome_capture_rejected (P : Platform) (env : Env) (w : World)
  (validUrl : string) (scraped : ScrapeResult) :
  validate P (url w) = Some validUrl ->
  scrape env validUrl = Some scraped ->
  screenshot env validUrl = None ->
  outcome P env w = failed Capture.
Proof. unfold outcome. now intros -> -> ->. Qed.

(** C6.  In every run in which a stage fails (the fetch, the capture, the
    analysis, or the write to the store), the store is left as it was, the
    result stays unset, the progress state is back at rest, exactly one
    notice is shown to the user, the generic failure notice, and the Enter
    key starts a new run.  In particular, when the screenshot service
    rejects, the store is unchanged and so is every listing made
    afterwards. *)
Theorem failed_run_leaves_nothing (P : Platform) (env : Env) (w : World) :
  let w' := analyzeWebsite P env w in
  (forall stage : Stage,
      outcome P env w = failed stage ->
      db w' = db w /\
      result w' = None /\
      idle w' /\
      toasts (log w')
      = (toasts (log w) ++ [toast_error "Analysis failed. Please try again."])%list /\
      (rendered w = true ->
       step P onKeyPress_Enter {| world := w'; inflight := [] |}
       = invoke P {| world := w'; inflight := [] |})) /\
  (forall (validUrl : string) (scraped : ScrapeResult),
      validate P (url w) = Some validUrl ->
      scrape env validUrl = Some scraped ->
      screenshot env validUrl = None ->
      db w' = db w /\
      forall (userId : string) (limit : nat),
        db_list (db w') userId limit = db_list (db w) userId limit).
Proof.
  intros w'. split.
  - intros stage Hout.
    destruct (analyzeWebsite_failed P env w stage Hout)
      as (Hdb & Hres & Hidle & Huser & _ & _ & Htoasts).
    repeat split; try assumption; try apply Hidle.
    intros Hr. unfold step. cbn [world].
    destruct Hidle as (Ha & _). fold w' in Ha, Huser.
    unfold rendered in *. rewrite Ha, Huser.
    destruct (user w); [reflexivity|discriminate].
  - intros validUrl scraped Hv Hs Hc.
    pose proof (outcome_capture_rejected P env w validUrl scraped Hv Hs Hc) as Hout.
    destruct (analyzeWebsite_failed P env w Capture Hout) as (Hdb & _).
    fold w' in Hdb. split; [exact Hdb|]. intros userId limit. now rewrite Hdb.
Qed.

(** The hypothesis of [failed_run_leaves_nothing] holds of a run whose
    screenshot call rejects. *)
Lemma failed_run_witness :
  let w := sample_world "example.com" [] in
  outcome sample_platform sample_env_capture_fails w = failed Capture /\
  db (analyzeWebsite sample_platform sample_env_capture_fails w) = db w.
Proof.
  split; [reflexivity|].
  apply (proj1 (failed_run_leaves_nothing sample_platform sample_env_capture_fails
                  (sample_world "example.com" [])) Capture).
  reflexivity.
Defined.

(** ** Validation of the input *)

Lemma validate_None (P : Platform) (url : string) :
  validate P url = None <->
  trim url = "" \/ URL_parses P (validUrlOf url) = false.
Proof.
  unfold validate.
  destruct (truthy (trim url)) eqn:Ht; cbn.
  - destruct (URL_parses P (validUrlOf url)) eqn:Hp.
    + split; [discriminate|].
      intros [H|H]; [|discriminate].
      apply truthy_false_iff in H. congruence.
    + split; auto.
  - apply truthy_false_iff in Ht. split; auto.
Qed.

Lemma validate_Some (P : Platform) (url validUrl : string) :
  validate P url = Some validUrl <->
  trim url <> "" /\ URL_parses P (validUrlOf url) = true /\ validUrl = validUrlOf url.
Proof.
  unfold validate.
  destruct (truthy (trim url)) eqn:Ht; cbn.
  - assert (Hne : trim url <> "").
    { intros H. apply truthy_false_iff in H. congruence. }
    destruct (URL_parses P (validUrlOf url)) eqn:Hp.
    + split; [intros [= <-]; auto | intros (_ & _ & ->); reflexivity].
    + split; [discriminate | intros (_ & H & _); discriminate].
  - apply truthy_false_iff in Ht. split; [discriminate | intros (H & _); contradiction].
Qed.

(** C7, counterexample.  The input is not trimmed.  For "example.com" with
    a trailing space, the URL handed to the parser and then carried through
    the run keeps the space, so it is not the scheme followed by the
    trimmed input; and an input with a leading space before its scheme gets
    a second scheme in front, although the trimmed input has one. *)
Lemma url_is_not_trimmed :
  validUrlOf "example.com " = "https://example.com " /\
  validUrlOf "example.com " <> "https://" ++ trim "example.com " /\
  option_map AnalysisResult.url
    (result (analyzeWebsite sample_platform
               (sample_env (sample_analysis 80 60 90 70 50) (sample_clock 1700000000000))
               (sample_world "example.com " [])))
  = Some "https://example.com " /\
  startsWith (trim " https://example.com") "https://" = true /\
  validUrlOf " https://example.com" = "https:// https://example.com".
Proof.
  repeat split; try reflexivity. discriminate.
Qed.

(** C7, as it holds of the code.  Trimming serves the emptiness test only;
    the URL is built from the input as typed.  An empty or white-space-only
    input is refused with the invalid-URL notice and nothing else happens.
    Otherwise "https://" is put in front of the input unless the input
    itself starts with "http://" or "https://"; if the result does not
    parse as a URL the input is refused with the same notice, and if it
    parses the run starts with it: the first thing done is the fetch of
    that URL. *)
Theorem url_validation_as_typed (P : Platform) (env : Env) (w : World) :
  let notice := emit [toast_error "Please enter a valid URL"] w in
  (trim (url w) = "" -> analyzeWebsite P env w = notice) /\
  (URL_parses P (validUrlOf (url w)) = false -> analyzeWebsite P env w = notice) /\
  (trim (url w) <> "" -> URL_parses P (validUrlOf (url w)) = true ->
   exists w1,
     start P w
     = (w1, Some {| closure_user := user w;
                    pending := awaitScrape (validUrlOf (url w)) |}) /\
     log w1 = (log w ++ [scrape_called (validUrlOf (url w))])%list) /\
  validUrlOf (url w)
  = (if startsWith (url w) "http://" || startsWith (url w) "https://"
     then url w
     else "https://" ++ url w).
Proof.
  intros notice. repeat split.
  - intros Ht. apply analyzeWebsite_refused. unfold outcome.
    assert (Hv : validate P (url w) = None) by (apply validate_None; auto).
    now rewrite Hv.
  - intros Hp. apply analyzeWebsite_refused. unfold outcome.
    assert (Hv : validate P (url w) = None) by (apply validate_None; auto).
    now rewrite Hv.
  - intros Ht Hp.
    assert (Hv : validate P (url w) = Some (validUrlOf (url w)))
      by (apply validate_Some; auto).
    unfold start. rewrite Hv. eexists. split; reflexivity.
  - unfold validUrlOf.
    destruct (startsWith (url w) "http://"), (startsWith (url w) "https://"); reflexivity.
Qed.

(** The hypotheses of [url_validation_as_typed] hold: of a blank input, of
    an input whose URL does not parse, and of one whose URL parses. *)
Lemma url_validation_witness :
  (trim "   " = "" /\
   analyzeWebsite sample_platform sample_env_capture_fails (sample_world "   " [])
   = emit [toast_error "Please enter a valid URL"] (sample_world "   " [])) /\
  (URL_parses sample_platform (validUrlOf "exam ple.com") = false /\
   analyzeWebsite sample_platform sample_env_capture_fails (sample_world "exam ple.com" [])
   = emit [toast_error "Please enter a valid URL"] (sample_world "exam ple.com" [])) /\
  (trim "example.com" <> "" /\
   URL_parses sample_platform (validUrlOf "example.com") = true /\
   exists w1,
     start sample_platform (sample_world "example.com" [])
     = (w1, Some {| closure_user := Some sample_user;
                    pending := awaitScrape "https://example.com" |}) /\
     log w1 = [scrape_called "https://example.com"]).
Proof.
  split; [|split].
  - split; [reflexivity|].
    apply (proj1 (url_validation_as_typed sample_platform sample_env_capture_fails
                    (sample_world "   " []))).
    reflexivity.
  - split; [reflexivity|].
    apply (proj1 (proj2 (url_validation_as_typed sample_platform sample_env_capture_fails
                           (sample_world "exam ple.com" [])))).
    reflexivity.
  - split; [discriminate|]. split; [reflexivity|].
    apply (proj1 (proj2 (proj2 (url_validation_as_typed sample_platform
                                  sample_env_capture_fails
                                  (sample_world "example.com" []))))).
    + discriminate.
    + reflexivity.
Defined.

(** ** One run at a time *)

(** C8.  In every state that the page reaches from its initial state, by
    any sequence of key presses, clicks, edits and settling promises, at
    most one run is in flight.  While a run is in flight, [analyzing] is
    set and both ways of invoking the analysis, the Enter key and the
    Analyze button, are refused: they leave the state as it is.  No promise
    other than that of the one run can settle, so the progress updates and
    the store writes of two runs never interleave. *)
Theorem single_flight (P : Platform) (u : User.t) (store : Store)
  (history : list AnalysisResult.t) (evs : list Event) :
  let sys := steps P evs (initial u store history) in
  (List.length (inflight sys) <= 1)%nat /\
  (inflight sys <> [] ->
   analyzing (world sys) = true /\
   step P onKeyPress_Enter sys = sys /\
   step P onClick_Analyze sys = sys) /\
  (forall (k : nat) (clk : Clock) (resp : Response),
      (0 < k)%nat -> step P (settled k clk resp) sys = sys).
Proof.
  intros sys.
  pose proof (steps_singleFlight P evs _ (initial_singleFlight u store history)) as Hinv.
  fold sys in Hinv. destruct Hinv as [[Hruns _]|(run & Hruns & Ha)].
  - rewrite Hruns. split; [cbn; lia|]. split; [congruence|].
    intros k clk resp _. unfold step. rewrite Hruns. now destruct k.
  - rewrite Hruns. split; [cbn; lia|]. split.
    + intros _. split; [exact Ha|].
      split; unfold step; rewrite Ha; cbn; rewrite andb_false_r; reflexivity.
    + intros k clk resp Hk. unfold step. rewrite Hruns.
      destruct k as [|k]; [lia|]. now destruct k.
Qed.

(** The hypotheses of [single_flight] hold once a URL is typed and Enter is
    pressed: a run is in flight, and a second Enter changes nothing. *)
Lemma single_flight_witness :
  let sys := steps sample_platform [onChange "example.com"; onKeyPress_Enter]
               (initial sample_user [] []) in
  inflight sys <> [] /\
  step sample_platform onKeyPress_Enter sys = sys /\
  step sample_platform (settled 1 (sample_clock 0) rejected) sys = sys.
Proof.
  split; [discriminate|]. split.
  - apply (proj1 (proj2 (single_flight sample_platform sample_user [] []
                           [onChange "example.com"; onKeyPress_Enter]))).
    discriminate.
  - apply (proj2 (proj2 (single_flight sample_platform sample_user [] []
                           [onChange "example.com"; onKeyPress_Enter]))).
    lia.
Defined.

(** The guard is in the handlers, not in the function: an invocation that
    bypassed them would put a second run in flight. *)
Lemma invoke_is_unguarded :
  let sys := steps sample_platform [onChange "example.com"; onKeyPress_Enter]
               (initial sample_user [] []) in
  List.length (inflight (invoke sample_platform sys)) = 2%nat.
Proof. reflexivity. Qed.

(** ** Report identifiers *)

(** C9, counterexample.  Two runs of one user that read the same clock
    value persist two different reports under the same id. *)
Lemma same_clock_reading_same_id :
  let env := sample_env (sample_analysis 80 60 90 70 50) (sample_clock 1700000000000) in
  let w1 := analyzeWebsite sample_platform env (sample_world "a.example.com" []) in
  let w2 := analyzeWebsite sample_platform env (setUrl "b.example.com" w1) in
  exists row1 row2,
    db w2 = [row1; row2] /\
    WebsiteAnalysis.userId row1 = WebsiteAnalysis.userId row2 /\
    WebsiteAnalysis.url row1 <> WebsiteAnalysis.url row2 /\
    WebsiteAnalysis.id row1 = WebsiteAnalysis.id row2.
Proof.
  vm_compute. do 2 eexists. repeat split; try reflexivity. discriminate.
Qed.

Lemma assemble_id (clk : Clock) (validUrl : string) (analysis : AnalysisData.t) :
  AnalysisData.id analysis = None ->
  AnalysisResult.id (assemble clk validUrl analysis)
  = "analysis_" ++ toString (now_id clk).
Proof. unfold assemble, spread. cbn. now intros ->. Qed.

(** C9, as it holds of the code.  The id of a report is made when the
    report is assembled: it is "analysis_" followed by the decimal numeral
    of the clock reading (the analyzer's object having no [id] property of
    its own).  Two persisted reports whose clock readings differ have
    different ids. *)
Theorem ids_differ_when_clock_readings_differ (P : Platform) (env1 env2 : Env)
  (w1 w2 : World) (validUrl1 validUrl2 : string) (analysis1 analysis2 : AnalysisData.t)
  (row1 row2 : WebsiteAnalysis.t) :
  outcome P env1 w1 = completed validUrl1 analysis1 row1 ->
  outcome P env2 w2 = completed validUrl2 analysis2 row2 ->
  AnalysisData.id analysis1 = None ->
  AnalysisData.id analysis2 = None ->
  now_id (clock env1) <> now_id (clock env2) ->
  WebsiteAnalysis.id row1 = "analysis_" ++ toString (now_id (clock env1)) /\
  WebsiteAnalysis.id row2 = "analysis_" ++ toString (now_id (clock env2)) /\
  WebsiteAnalysis.id row1 <> WebsiteAnalysis.id row2 /\
  AnalysisResult.id (assemble (clock env1) validUrl1 analysis1)
  <> AnalysisResult.id (assemble (clock env2) validUrl2 analysis2).
Proof.
  intros Hout1 Hout2 Hid1 Hid2 Hclk.
  destruct (analyzeWebsite_completed P env1 w1 _ _ _ Hout1) as (_ & Hrow1 & _).
  destruct (analyzeWebsite_completed P env2 w2 _ _ _ Hout2) as (_ & Hrow2 & _).
  destruct (createRow_Some _ _ _ _ _ Hrow1) as (u1 & s1 & _ & _ & _ & Hi1 & _).
  destruct (createRow_Some _ _ _ _ _ Hrow2) as (u2 & s2 & _ & _ & _ & Hi2 & _).
  rewrite assemble_id in Hi1, Hi2 by assumption.
  rewrite !assemble_id by assumption. rewrite Hi1, Hi2.
  assert (Hne : "analysis_" ++ toString (now_id (clock env1))
                <> "analysis_" ++ toString (now_id (clock env2))).
  { intros H. apply append_inj_r, toString_inj in H. contradiction. }
  auto.
Qed.

(** The hypotheses of [ids_differ_when_clock_readings_differ] hold of two
    runs one millisecond apart. *)
Lemma ids_differ_witness :
  let analysis := sample_analysis 80 60 90 70 50 in
  let env1 := sample_env analysis (sample_clock 1700000000000) in
  let env2 := sample_env analysis (sample_clock 1700000000001) in
  let w := sample_world "example.com" [] in
  exists row1 row2,
    outcome sample_platform env1 w = completed "https://example.com" analysis row1 /\
    outcome sample_platform env2 w = completed "https://example.com" analysis row2 /\
    WebsiteAnalysis.id row1 <> WebsiteAnalysis.id row2.
Proof.
  do 2 eexists. split; [vm_compute; reflexivity|]. split; [vm_compute; reflexivity|].
  apply (ids_differ_when_clock_readings_differ sample_platform
           (sample_env (sample_analysis 80 60 90 70 50) (sample_clock 1700000000000))
           (sample_env (sample_analysis 80 60 90 70 50) (sample_clock 1700000000001))
           (sample_world "example.com" []) (sample_world "example.com" [])
           "https://example.com" "https://example.com"
           (sample_analysis 80 60 90 70 50) (sample_analysis 80 60 90 70 50)).
  - vm_compute. reflexivity.
  - vm_compute. reflexivity.
  - reflexivity.
  - reflexivity.
  - discriminate.
Defined.

(** ** Progress state after a run *)

(** C10.  After every invocation of the analysis that has run to its end,
    the progress state is at rest: [analyzing] is false, the percentage is
    0 and the step label is empty.  This holds of every run that got past
    validation, whether it completed or failed; a refused input leaves the
    state at rest if it was; and in every state the page reaches, the
    progress state is at rest whenever no run is in flight.  In particular
    a completed run leaves neither 100 nor the completion label behind. *)
Theorem progress_is_reset_after_every_run (P : Platform) (env : Env) (w : World) :
  let w' := analyzeWebsite P env w in
  (outcome P env w <> refused -> idle w') /\
  (idle w -> idle w') /\
  (forall (validUrl : string) (analysis : AnalysisData.t) (row : WebsiteAnalysis.t),
      outcome P env w = completed validUrl analysis row ->
      analyzing w' = false /\ progress w' = 0 /\ currentStep w' = "" /\
      progress w' <> 100 /\ currentStep w' <> "Analysis complete!") /\
  (forall (u : User.t) (store : Store) (history : list AnalysisResult.t)
          (evs : list Event),
      let sys := steps P evs (initial u store history) in
      inflight sys = [] -> idle (world sys)).
Proof.
  intros w'.
  assert (Hstarted : outcome P env w <> refused -> idle w').
  { intros Hne. destruct (outcome P env w) as [|stage|validUrl analysis row] eqn:Hout.
    - contradiction.
    - apply (analyzeWebsite_failed P env w stage Hout).
    - apply (analyzeWebsite_completed P env w _ _ _ Hout). }
  split; [exact Hstarted|]. split; [|split].
  - intros Hidle. destruct (outcome P env w) eqn:Hout.
    + unfold w'. rewrite (analyzeWebsite_refused P env w Hout). exact Hidle.
    + apply Hstarted. discriminate.
    + apply Hstarted. discriminate.
  - intros validUrl analysis row Hout.
    destruct Hstarted as (Ha & Hp & Hs); [rewrite Hout; discriminate|].
    rewrite Ha, Hp, Hs. repeat split; discriminate.
  - intros u store history evs sys Hnone.
    destruct (steps_singleFlight P evs _ (initial_singleFlight u store history))
      as [[_ Hidle]|(run & Hrun & _)].
    + exact Hidle.
    + fold sys in Hrun. congruence.
Qed.

(** The hypotheses of [progress_is_reset_after_every_run] hold of a run
    that completes. *)
Lemma progress_is_reset_witness :
  let env := sample_env (sample_analysis 80 60 90 70 50) (sample_clock 1700000000000) in
  let w := sample_world "example.com" [] in
  outcome sample_platform env w <> refused /\
  idle w /\
  idle (analyzeWebsite sample_platform env w).
Proof.
  split; [vm_compute; discriminate|].
  split; [vm_compute; auto|].
  apply (proj1 (progress_is_reset_after_every_run sample_platform
                  (sample_env (sample_analysis 80 60 90 70 50) (sample_clock 1700000000000))
                  (sample_world "example.com" []))).
  vm_compute. discriminate.
Defined.

(* ===================================================================== *)
(** * Further properties of the code                                      *)
(* ===================================================================== *)

(** ** Further properties: the URL *)

Lemma startsWith_prepended (prefix s : string) : startsWith (prefix ++ s) prefix = true.
Proof.
  unfold startsWith. induction prefix as [|c p IH]; cbn.
  - now destruct s.
  - destruct (ascii_dec c c); [exact IH|contradiction].
Qed.

Lemma validUrlOf_has_scheme (url : string) :
  startsWith (validUrlOf url) "http://" || startsWith (validUrlOf url) "https://" = true.
Proof.
  unfold validUrlOf.
  destruct (startsWith url "http://") eqn:H1; cbn [negb andb]; [now rewrite H1|].
  destruct (startsWith url "https://") eqn:H2; cbn [negb andb].
  - now rewrite H1, H2.
  - rewrite (startsWith_prepended "https://" url). apply orb_true_r.
Qed.

Lemma validUrlOf_idempotent (url : string) : validUrlOf (validUrlOf url) = validUrlOf url.
Proof.
  pose proof (validUrlOf_has_scheme url) as H.
  unfold validUrlOf at 1.
  apply orb_true_iff in H. destruct H as [-> | ->]; cbn [negb andb]; [reflexivity|].
  now rewrite andb_false_r.
Qed.

(** X1.  The URL built from an input is the input itself or the input
    behind "https://"; either way it starts with "http://" or "https://",
    and building it again changes nothing: a scheme is never put in front
    twice. *)
Theorem url_gets_exactly_one_scheme (url : string) :
  (validUrlOf url = url \/ validUrlOf url = "https://" ++ url) /\
  startsWith (validUrlOf url) "http://" || startsWith (validUrlOf url) "https://" = true /\
  validUrlOf (validUrlOf url) = validUrlOf url.
Proof.
  split; [|split; [apply validUrlOf_has_scheme | apply validUrlOf_idempotent]].
  unfold validUrlOf.
  destruct (negb (startsWith url "http://") && negb (startsWith url "https://")); auto.
Qed.

Lemma trim_nonblank (c : ascii) (s : string) :
  isWhiteSpace c = false -> trim (String c s) <> "".
Proof.
  intros Hc. unfold trim, trimStart, trimEnd. cbn. rewrite Hc. cbn.
  destruct (dropWhileEnd isWhiteSpace s); [rewrite Hc|]; discriminate.
Qed.

Lemma prefix_cons (a c : ascii) (p s : string) :
  String.prefix (String a p) (String c s)
  = if ascii_dec a c then String.prefix p s else false.
Proof. reflexivity. Qed.

Lemma has_scheme_nonblank (s : string) :
  startsWith s "http://" || startsWith s "https://" = true -> trim s <> "".
Proof.
  unfold startsWith. intros H.
  destruct s as [|c s]; [discriminate|].
  apply trim_nonblank.
  destruct (Ascii.eqb_spec c "h") as [->|Hne]; [reflexivity|].
  rewrite (prefix_cons "h" c "ttp://"), (prefix_cons "h" c "ttps://") in H.
  destruct (ascii_dec "h" c) as [<-|]; [contradiction|discriminate].
Qed.


(** X2.  A URL that validation has produced is accepted again, as it is:
    validating it returns the same URL. *)
Theorem accepted_url_is_a_fixed_point (P : Platform) (url validUrl : string) :
  validate P url = Some validUrl ->
  validUrlOf validUrl = validUrl /\
  validate P validUrl = Some validUrl /\
  startsWith validUrl "http://" || startsWith validUrl "https://" = true.
Proof.
  intros H. apply validate_Some in H. destruct H as (_ & Hp & ->).
  pose proof (validUrlOf_has_scheme url) as Hs.
  pose proof (validUrlOf_idempotent url) as Hi.
  repeat split; try assumption.
  apply validate_Some. rewrite Hi. repeat split; try assumption.
  now apply has_scheme_nonblank.
Qed.

(** The hypothesis of [accepted_url_is_a_fixed_point] holds of
    "example.com". *)
Lemma accepted_url_witness :
  validate sample_platform "example.com" = Some "https://example.com" /\
  validate sample_platform "https://example.com" = Some "https://example.com".
Proof.
  split; [reflexivity|].
  apply (accepted_url_is_a_fixed_point sample_platform "example.com" "https://example.com").
  reflexivity.
Defined.

(** ** Score bands *)



(** ** The overall score stays within the scores *)

(** X15.  For an entry whose five category scores are integers from 0 to
    100, the overall score lies between any bounds within that range that
    hold of the five scores; so it is in [0,100]. *)
Theorem overall_within_scores (item : AnalysisResult.t) (p s a d x lo hi : Z) :
  scoresOf item = Some (p, s, a, d, x) ->
  0 <= lo -> hi <= 100 ->
  lo <= p <= hi -> lo <= s <= hi -> lo <= a <= hi -> lo <= d <= hi -> lo <= x <= hi ->
  exists overall, overallScore item = Some (double_of_Z overall) /\ lo <= overall <= hi.
Proof.
  intros Hs Hlo Hhi Hp Hse Ha Hd Hx.
  exists ((2 * (p + s + a + d + x) + 5) / 10).
  split; [apply overallScore_percentages; unfold inRange; auto; lia|].
  apply fifth_within. lia.
Qed.

(** The hypotheses of [overall_within_scores] hold of the sample report. *)
Lemma overall_within_witness :
  exists overall,
    overallScore (sample_report 1700000000000 80 60 90 70 50) = Some (double_of_Z overall) /\
    50 <= overall <= 90.
Proof.
  apply (overall_within_scores (sample_report 1700000000000 80 60 90 70 50)
           80 60 90 70 50 50 90); [reflexivity|lia|lia|lia|lia|lia|lia|lia].
Defined.

(** Beyond the integers that doubles add exactly the bounds give way: five
    scores of 9007199254740991 have an overall score of
    9007199254740990. *)
Example overall_below_equal_scores :
  overallScore (bareEntry "analysis_1" "https://example.com" 1
                  (9007199254740991, 9007199254740991, 9007199254740991,
                   9007199254740991, 9007199254740991))
  = Some (double_of_Z 9007199254740990) /\
  double_of_Z 9007199254740990 <> double_of_Z 9007199254740991.
Proof. split; [vm_compute; reflexivity|vm_compute; discriminate]. Qed.

(** ** Decoding, further *)

(** X12.  When the blob of a row parses to an object that has an id, a url
    and a timestamp, the decoded entry is decided by the blob alone: the
    columns of the row are not read, two rows with that blob decode alike,
    and the entry carries the id, url and timestamp of the blob. *)
Theorem complete_blob_decides_the_entry (P : Platform) (item item' : WebsiteAnalysis.t)
  (data : AnalysisData.t) :
  WebsiteAnalysis.analysisData item' = WebsiteAnalysis.analysisData item ->
  JSON_parse P (WebsiteAnalysis.analysisData item) = Some data ->
  AnalysisData.id data <> None ->
  AnalysisData.url data <> None ->
  AnalysisData.timestamp data <> None ->
  parseItem P item' = parseItem P item /\
  AnalysisData.id data = Some (AnalysisResult.id (fst (parseItem P item))) /\
  AnalysisData.url data = Some (AnalysisResult.url (fst (parseItem P item))) /\
  AnalysisData.timestamp data = Some (AnalysisResult.timestamp (fst (parseItem P item))).
Proof.
  intros Hblob Hparse Hid Hurl Hts. unfold parseItem. rewrite Hblob, Hparse.
  unfold spread. cbn.
  destruct (AnalysisData.id data); [|contradiction].
  destruct (AnalysisData.url data); [|contradiction].
  destruct (AnalysisData.timestamp data); [|contradiction].
  repeat split; reflexivity.
Qed.

(** The hypotheses of [complete_blob_decides_the_entry] hold of two rows
    that share the blob of the sample report. *)
Lemma complete_blob_witness :
  WebsiteAnalysis.analysisData sample_mismatched_row
  = WebsiteAnalysis.analysisData sample_stored_row /\
  JSON_parse sample_platform (WebsiteAnalysis.analysisData sample_stored_row)
  = Some (dataOf (sample_report 1700000000000 80 60 90 70 50)) /\
  parseItem sample_platform sample_mismatched_row
  = parseItem sample_platform sample_stored_row.
Proof.
  split; [reflexivity|]. split; [vm_compute; reflexivity|].
  apply (complete_blob_decides_the_entry sample_platform sample_stored_row
           sample_mismatched_row (dataOf (sample_report 1700000000000 80 60 90 70 50))).
  - reflexivity.
  - vm_compute. reflexivity.
  - discriminate.
  - discriminate.
  - discriminate.
Defined.

(** X13.  A blob that parses to an object lacking a category is taken as it
    is: nothing is logged, the fallback is not used, the denormalized
    scores of the row are not consulted, and the entry has no overall
    score (the expression of line 876 raises a [TypeError]). *)
Theorem partial_blob_is_not_repaired (P : Platform) (item : WebsiteAnalysis.t)
  (data : AnalysisData.t) :
  JSON_parse P (WebsiteAnalysis.analysisData item) = Some data ->
  conforms data = false ->
  let entry := fst (parseItem P item) in
  snd (parseItem P item) = [] /\
  scoresOf entry = None /\
  overallScore entry = None /\
  entry <> fallback item.
Proof.
  intros Hparse Hconf entry. unfold entry, parseItem. rewrite Hparse. cbn.
  unfold conforms in Hconf. unfold scoresOf, overallScore, spread, fallback. cbn.
  destruct (AnalysisData.performance data); [|repeat split; try reflexivity; discriminate].
  destruct (AnalysisData.seo data); [|repeat split; try reflexivity; discriminate].
  destruct (AnalysisData.accessibility data); [|repeat split; try reflexivity; discriminate].
  destruct (AnalysisData.design data); [|repeat split; try reflexivity; discriminate].
  destruct (AnalysisData.ux data); [discriminate|repeat split; try reflexivity; discriminate].
Qed.

(** The hypotheses of [partial_blob_is_not_repaired] hold of a row whose
    blob holds no category although its score columns are filled. *)
Lemma partial_blob_witness :
  rowScores sample_partial_row = Some (40, 50, 60, 70, 80) /\
  overallScore (fst (parseItem sample_platform sample_partial_row)) = None.
Proof.
  split; [reflexivity|].
  apply (partial_blob_is_not_repaired sample_platform sample_partial_row
           {| AnalysisData.id := None; AnalysisData.url := None;
              AnalysisData.timestamp := None; AnalysisData.performance := None;
              AnalysisData.seo := None; AnalysisData.accessibility := None;
              AnalysisData.design := None; AnalysisData.ux := None |}).
  - vm_compute. reflexivity.
  - reflexivity.
Defined.




(** ** The run, further *)

Lemma callsOf_app (l1 l2 : list Effect) :
  callsOf (l1 ++ l2) = (callsOf l1 ++ callsOf l2)%list.
Proof.
  induction l1 as [|e l1 IH]; cbn; [reflexivity|].
  destruct (serviceOf e); cbn; now rewrite IH.
Qed.

Lemma parse_effects_call_nothing (P : Platform) (analyses : list WebsiteAnalysis.t) :
  callsOf (flat_map (fun item => snd (parseItem P item)) analyses) = [].
Proof.
  induction analyses as [|item l IH]; cbn; [reflexivity|].
  rewrite callsOf_app, IH, app_nil_r. unfold parseItem.
  now destruct (JSON_parse P (WebsiteAnalysis.analysisData item)).
Qed.

Ltac close_calls :=
  cbn; rewrite <- ?app_assoc;
  eexists; eexists; split; [reflexivity|];
  rewrite ?callsOf_app, ?parse_effects_call_nothing; cbn;
  split; [reflexivity|]; split; intros; try discriminate; try reflexivity.

(** X3.  The effects of a run are appended to the log, and the services it
    calls form a prefix of: scrape, screenshot, generateObject, create,
    list.  So each service is called at most once, none before the one
    ahead of it; a refused input calls none and a completed run calls all
    five. *)
Theorem services_called_in_pipeline_order (P : Platform) (env : Env) (w : World) :
  let w' := analyzeWebsite P env w in
  exists new rest,
    log w' = (log w ++ new)%list /\
    (callsOf new ++ rest)%list = pipelineOrder /\
    (outcome P env w = refused -> callsOf new = []) /\
    (forall validUrl analysis row,
        outcome P env w = completed validUrl analysis row -> rest = []).
Proof.
  unfold outcome, analyzeWebsite, start.
  destruct (validate P (url w)) as [v|] eqn:Hv; [|close_calls].
  unfold_run.
  destruct (scrape env v) as [scraped|] eqn:Hs; [|close_calls].
  unfold_run.
  destruct (screenshot env v) as [shot|] eqn:Hc; [|close_calls].
  unfold_run.
  destruct (generateObject env _) as [a|] eqn:Hg; [|close_calls].
  unfold_run.
  destruct (createRow P (clock env) (user w) _) as [row|] eqn:Hr; [|close_calls].
  unfold_run.
  destruct (createRow_Some _ _ _ _ _ Hr) as (u & scores & Hu & _).
  destruct (create_resolves env row) eqn:Hcr; [|close_calls].
  rewrite Hu. unfold_run.
  destruct (list_resolves env) eqn:Hl; unfold_run;
    unfold loadHistory_resolved, loadHistory_rejected; close_calls.
Qed.

Lemma run_to_end_past_capture (P : Platform) (env : Env)
  (shot : string -> option string) (fuel : nat) :
  forall (run : Run) (w : World),
    (awaitsLeft (pending run) <= 3)%nat ->
    run_to_end fuel P (withScreenshot shot env) run w = run_to_end fuel P env run w.
Proof.
  induction fuel as [|fuel IH]; intros run w Hleft; [reflexivity|].
  cbn [run_to_end].
  assert (Hresp : respond (withScreenshot shot env) run = respond env run).
  { unfold respond.
    destruct (pending run) as [v|v scraped|v prompt|r row|userId]; cbn in Hleft;
      try lia; reflexivity. }
  rewrite Hresp. change (clock (withScreenshot shot env)) with (clock env).
  destruct (resume P (clock env) run (respond env run) w) as [w' [run'|]] eqn:Hres;
    [|reflexivity].
  apply IH. apply resume_awaitsLeft in Hres. lia.
Qed.

(** X4.  The screenshot that the capture returns is never used: replacing
    the screenshot service by one that answers with other references, and
    rejects for the same URLs, changes nothing in what a run does. *)
Theorem screenshot_is_never_used (P : Platform) (env : Env) (w : World)
  (shot : string -> option string) :
  (forall validUrl, shot validUrl = None <-> screenshot env validUrl = None) ->
  analyzeWebsite P (withScreenshot shot env) w = analyzeWebsite P env w.
Proof.
  intros Hsame. unfold analyzeWebsite, start.
  destruct (validate P (url w)) as [v|] eqn:Hv; [|reflexivity].
  unfold_run. cbn [scrape withScreenshot].
  destruct (scrape env v) as [scraped|] eqn:Hs; [|reflexivity].
  unfold_run. cbn [screenshot withScreenshot].
  destruct (screenshot env v) as [url1|] eqn:H1; destruct (shot v) as [url2|] eqn:H2.
  - apply (run_to_end_past_capture P env shot 3). cbn. lia.
  - apply Hsame in H2. congruence.
  - apply Hsame in H1. congruence.
  - reflexivity.
Qed.

(** The hypothesis of [screenshot_is_never_used] holds of a service that
    returns another reference. *)
Lemma screenshot_witness :
  let env := sample_env (sample_analysis 80 60 90 70 50) (sample_clock 1700000000000) in
  let shot := fun _ : string => Some "https://cdn.example.com/other.png" in
  (forall validUrl, shot validUrl = None <-> screenshot env validUrl = None) /\
  analyzeWebsite sample_platform (withScreenshot shot env) (sample_world "example.com" [])
  = analyzeWebsite sample_platform env (sample_world "example.com" []).
Proof.
  split.
  - intros validUrl. cbn. split; discriminate.
  - apply (screenshot_is_never_used sample_platform
             (sample_env (sample_analysis 80 60 90 70 50) (sample_clock 1700000000000))
             (sample_world "example.com" [])
             (fun _ => Some "https://cdn.example.com/other.png")).
    intros validUrl. cbn. split; discriminate.
Defined.

(** X6.  When the analyzer resolves with an object that lacks a category,
    the run fails in the analyze stage before [create] is called: no call
    to the store is made, nothing is persisted, no result is set and the
    generic failure notice is shown. *)
Theorem incomplete_analysis_is_never_written (P : Platform) (env : Env) (w : World)
  (validUrl : string) (scraped : ScrapeResult) (screenshotUrl : string)
  (analysis : AnalysisData.t) :
  validate P (url w) = Some validUrl ->
  scrape env validUrl = Some scraped ->
  screenshot env validUrl = Some screenshotUrl ->
  generateObject env (analysisPrompt validUrl scraped) = Some analysis ->
  conforms analysis = false ->
  let w' := analyzeWebsite P env w in
  outcome P env w = failed Analyze /\
  filter isCreate (log w') = filter isCreate (log w) /\
  db w' = db w /\
  result w' = None /\
  toasts (log w')
  = (toasts (log w) ++ [toast_error "Analysis failed. Please try again."])%list.
Proof.
  intros Hv Hs Hc Hg Hconf w'.
  assert (Hrow : createRow P (clock env) (user w) (assemble (clock env) validUrl analysis)
                 = None).
  { unfold createRow, assemble, spread, conforms in *. cbn.
    destruct (user w); [|reflexivity].
    destruct (AnalysisData.performance analysis); [|reflexivity].
    destruct (AnalysisData.seo analysis); [|reflexivity].
    destruct (AnalysisData.accessibility analysis); [|reflexivity].
    destruct (AnalysisData.design analysis); [|reflexivity].
    destruct (AnalysisData.ux analysis); [discriminate|reflexivity]. }
  assert (Hout : outcome P env w = failed Analyze).
  { unfold outcome. now rewrite Hv, Hs, Hc, Hg, Hrow, Hconf. }
  split; [exact Hout|].
  destruct (analyzeWebsite_failed P env w Analyze Hout) as (Hdb & Hres & _ & _ & _ & _ & Ht).
  repeat split; try assumption.
  unfold w', analyzeWebsite, start. rewrite Hv. unfold_run. rewrite Hs. unfold_run.
  rewrite Hc. unfold_run. rewrite Hg. unfold_run. rewrite Hrow.
  cbn. rewrite !filter_app. cbn. now rewrite !app_nil_r.
Qed.

(** The hypotheses of [incomplete_analysis_is_never_written] hold of an
    analysis with one category. *)
Lemma incomplete_analysis_witness :
  let env := sample_env sample_incomplete_analysis (sample_clock 1700000000000) in
  conforms sample_incomplete_analysis = false /\
  db (analyzeWebsite sample_platform env (sample_world "example.com" [])) = [].
Proof.
  split; [reflexivity|].
  apply (proj1 (proj2 (proj2
           (incomplete_analysis_is_never_written sample_platform
              (sample_env sample_incomplete_analysis (sample_clock 1700000000000))
              (sample_world "example.com" []) "https://example.com" sample_scraped
              "https://cdn.example.com/shot.png" sample_incomplete_analysis
              eq_refl eq_refl eq_refl eq_refl eq_refl)))).
Defined.

(** X7.  When the report has been persisted and the history refresh that
    follows is rejected, the run still completes: the report stays in the
    store and is set as the result, the history is left as it was, and the
    user sees the history notice followed by the success notice. *)
Theorem history_refresh_failure_keeps_the_report (P : Platform) (env : Env) (w : World)
  (validUrl : string) (analysis : AnalysisData.t) (row : WebsiteAnalysis.t) :
  outcome P env w = completed validUrl analysis row ->
  list_resolves env = false ->
  let w' := analyzeWebsite P env w in
  db w' = db_create (db w) row /\
  result w' = Some (assemble (clock env) validUrl analysis) /\
  history w' = history w /\
  toasts (log w')
  = (toasts (log w)
     ++ [toast_error "Failed to load analysis history";
         toast_success "Website analysis completed!"])%list.
Proof.
  intros Hout Hl w'.
  destruct (analyzeWebsite_completed P env w _ _ _ Hout)
    as (_ & _ & _ & Hdb & Hres & _ & Hh & Ht).
  rewrite Hl in Hh, Ht. auto.
Qed.

(** The hypotheses of [history_refresh_failure_keeps_the_report] hold of a
    run whose [list] call rejects. *)
Lemma history_refresh_failure_witness :
  let w' := analyzeWebsite sample_platform sample_env_list_fails
              (sample_world "example.com" []) in
  list_resolves sample_env_list_fails = false /\
  result w' = Some (sample_report 1700000000000 80 60 90 70 50).
Proof.
  split; [reflexivity|].
  eapply (proj1 (proj2 (history_refresh_failure_keeps_the_report sample_platform
                          sample_env_list_fails
                          (sample_world "example.com" []) "https://example.com"
                          (sample_analysis 80 60 90 70 50) _ _ eq_refl))).
  Unshelve. 2: vm_compute; reflexivity.
Defined.








(** X8.  A run never changes the text of the input box, which keeps what
    was typed and not the URL built from it, nor the signed-in user; the
    history changes only in a run that completes and whose history refresh
    resolves. *)
Theorem run_leaves_input_and_user (P : Platform) (env : Env) (w : World) :
  let w' := analyzeWebsite P env w in
  url w' = url w /\
  user w' = user w /\
  (history w' <> history w ->
   list_resolves env = true /\
   exists validUrl analysis row, outcome P env w = completed validUrl analysis row).
Proof.
  intros w'.
  destruct (outcome P env w) as [|stage|validUrl analysis row] eqn:Hout.
  - unfold w'. rewrite (analyzeWebsite_refused P env w Hout). cbn.
    split; [reflexivity|]. split; [reflexivity|]. intros H. now contradiction H.
  - destruct (analyzeWebsite_failed P env w stage Hout) as (_ & _ & _ & Hu & Hurl & Hh & _).
    fold w' in Hu, Hurl, Hh. split; [exact Hurl|]. split; [exact Hu|].
    intros H. now contradiction H.
  - destruct (analyzeWebsite_completed P env w _ _ _ Hout)
      as (_ & _ & _ & _ & _ & _ & Hh & _).
    fold w' in Hh.
    assert (Hframe : url w' = url w /\ user w' = user w).
    { revert Hout. unfold w', outcome, analyzeWebsite, start.
      destruct (validate P (url w)) as [v|] eqn:Hv; [|discriminate].
      unfold_run.
      destruct (scrape env v) as [scraped|] eqn:Hs; [|discriminate].
      unfold_run.
      destruct (screenshot env v) as [shot|] eqn:Hc; [|discriminate].
      unfold_run.
      destruct (generateObject env _) as [a|] eqn:Hg; [|discriminate].
      unfold_run.
      destruct (createRow P (clock env) (user w) _) as [row'|] eqn:Hr; [|discriminate].
      unfold_run.
      destruct (createRow_Some _ _ _ _ _ Hr) as (u & scores & Hu & _).
      destruct (create_resolves env row') eqn:Hcr; [|discriminate].
      intros _. rewrite Hu. unfold_run.
      destruct (list_resolves env); unfold_run; cbn; auto. }
    destruct Hframe as [Hurl Hu]. split; [exact Hurl|]. split; [exact Hu|].
    intros H. split; [|eauto].
    destruct (list_resolves env); [reflexivity|now contradiction H].
Qed.

(** The hypothesis of [run_leaves_input_and_user] holds of a completed
    run. *)
Lemma run_leaves_input_witness :
  let env := sample_env (sample_analysis 80 60 90 70 50) (sample_clock 1700000000000) in
  let w := sample_world "example.com" [] in
  history (analyzeWebsite sample_platform env w) <> history w /\
  list_resolves env = true.
Proof.
  split; [vm_compute; discriminate|].
  apply (proj2 (proj2 (run_leaves_input_and_user sample_platform
                         (sample_env (sample_analysis 80 60 90 70 50)
                                     (sample_clock 1700000000000))
                         (sample_world "example.com" [])))).
  vm_compute. discriminate.
Defined.

(** ** The page, further *)

Lemma In_skipn {A : Type} (n : nat) (l : list A) (x : A) :
  In x (skipn n l) -> In x l.
Proof.
  revert l. induction n as [|n IH]; intros [|y l]; cbn; try tauto.
  intros H. right. now apply IH.
Qed.

Lemma In_settle (k : nat) (next : option Run) (runs : list Run) (run : Run) :
  In run (settle k next runs) -> In run runs \/ next = Some run.
Proof.
  unfold settle. rewrite !in_app_iff. intros [H|[H|H]].
  - left. now apply In_firstn in H.
  - destruct next as [r|]; cbn in H; [|contradiction].
    destruct H as [->|[]]. now right.
  - left. now apply In_skipn in H.
Qed.

Lemma start_tracks (P : Platform) (w w' : World) (run : Run) :
  start P w = (w', Some run) ->
  progress w' = checkpoint (pending run) /\
  currentStep w' = stepLabel (pending run) /\
  closure_user run = user w /\
  user w' = user w /\ db w' = db w /\
  exists validUrl, pending run = awaitScrape validUrl.
Proof.
  unfold start. destruct (validate P (url w)) as [v|]; [|discriminate].
  intros [= <- <-]. cbn. eauto 10.
Qed.

Lemma start_refused_frame (P : Platform) (w w' : World) :
  start P w = (w', None) -> user w' = user w /\ db w' = db w.
Proof.
  unfold start. destruct (validate P (url w)) as [v|]; [discriminate|].
  intros [= <-]. cbn. auto.
Qed.

Lemma resume_tracks (P : Platform) (clk : Clock) (run run' : Run) (resp : Response)
  (w w' : World) :
  resume P clk run resp w = (w', Some run') ->
  progress w = checkpoint (pending run) /\ currentStep w = stepLabel (pending run) ->
  progress w' = checkpoint (pending run') /\ currentStep w' = stepLabel (pending run').
Proof.
  unfold resume.
  destruct (pending run) as [v|v scraped|v prompt|r row|userId] eqn:Hp, resp;
    try (intros [= <- <-]; rewrite ?Hp; cbn; now auto);
    try (destruct (createRow P clk (closure_user run) _); intros [= <- <-]; cbn; now auto);
    try (destruct (closure_user run); intros [= <- <-]; cbn; now auto);
    discriminate.
Qed.

Lemma steps_tracksStage (P : Platform) (evs : list Event) :
  forall sys, singleFlight sys -> tracksStage sys -> tracksStage (steps P evs sys).
Proof.
  unfold steps.
  induction evs as [|ev evs IH]; intros sys Hsf Htr; cbn; [assumption|].
  apply IH; [now apply step_singleFlight|].
  clear IH. unfold tracksStage in *. destruct sys as [w runs]. unfold step.
  cbn [world inflight] in *.
  destruct ev as [value| | |index|k clk resp|resolved].
  - destruct (rendered w && negb (analyzing w)); cbn; [|assumption].
    intros run Hin. now apply Htr.
  - destruct (rendered w && negb (analyzing w)) eqn:E; [|assumption].
    apply andb_true_iff in E. destruct E as [_ E]. apply negb_true_iff in E.
    destruct Hsf as [[Hr _]|(run0 & _ & Ha)]; cbn in *; [|congruence].
    subst runs. unfold invoke. cbn [world inflight].
    destruct (start P w) as [w' [run|]] eqn:Hst; cbn; [|tauto].
    intros run' [<-|[]]. now apply start_tracks in Hst.
  - destruct (rendered w && negb (analyzing w || negb (truthy (trim (url w))))) eqn:E;
      [|assumption].
    apply andb_true_iff in E. destruct E as [_ E]. apply negb_true_iff in E.
    apply orb_false_iff in E. destruct E as [E _].
    destruct Hsf as [[Hr _]|(run0 & _ & Ha)]; cbn in *; [|congruence].
    subst runs. unfold invoke. cbn [world inflight].
    destruct (start P w) as [w' [run|]] eqn:Hst; cbn; [|tauto].
    intros run' [<-|[]]. now apply start_tracks in Hst.
  - destruct (rendered w); [|assumption].
    destruct (nth_error (history w) index); [|assumption].
    cbn. intros run Hin. now apply Htr.
  - destruct Hsf as [[Hr _]|(run0 & Hr & _)]; cbn in *; subst runs.
    + destruct k; cbn; tauto.
    + destruct k as [|k]; cbn.
      * destruct (resume P clk run0 resp w) as [w' [run'|]] eqn:Hres; cbn; [|tauto].
        intros run [<-|[]]. apply (resume_tracks _ _ _ _ _ _ _ Hres).
        apply Htr. now left.
      * destruct k; cbn; assumption.
  - destruct (user w); [|assumption].
    destruct resolved; cbn; intros run Hin; now apply Htr.
Qed.

(** X9.  In every state the page reaches, the percentage and the step
    label shown are those of the stage the run in flight is waiting on:
    20 while fetching, 40 while capturing, 60 while analysing, 80 while
    saving, 100 while the history is refreshed. *)
Theorem progress_shows_the_stage (P : Platform) (u : User.t) (store : Store)
  (history : list AnalysisResult.t) (evs : list Event) (run : Run) :
  let sys := steps P evs (initial u store history) in
  In run (inflight sys) ->
  progress (world sys) = checkpoint (pending run) /\
  currentStep (world sys) = stepLabel (pending run) /\
  20 <= progress (world sys) <= 100.
Proof.
  intros sys Hin.
  assert (Htr : tracksStage sys).
  { apply steps_tracksStage; [apply initial_singleFlight|].
    intros r []. }
  destruct (Htr run Hin) as [Hp Hs]. repeat split; try assumption;
    rewrite Hp; destruct (pending run); cbn; lia.
Qed.

(** The hypothesis of [progress_shows_the_stage] holds after the fetch of
    a run has resolved. *)
Lemma progress_shows_witness :
  let sys := steps sample_platform
               [onChange "example.com"; onKeyPress_Enter;
                settled 0 (sample_clock 0) (scrape_resolved sample_scraped)]
               (initial sample_user [] []) in
  exists run,
    In run (inflight sys) /\ progress (world sys) = checkpoint (pending run).
Proof.
  eexists. split; [left; reflexivity|].
  eapply proj1.
  apply (progress_shows_the_stage sample_platform sample_user [] []
           [onChange "example.com"; onKeyPress_Enter;
            settled 0 (sample_clock 0) (scrape_resolved sample_scraped)]).
  left. reflexivity.
Defined.

Lemma resume_runsFor (P : Platform) (clk : Clock) (u : User.t) (run : Run)
  (resp : Response) (w w' : World) (next : option Run) (store : Store) :
  resume P clk run resp w = (w', next) ->
  user w = Some u ->
  closure_user run = Some u ->
  match pending run with
  | awaitCreate _ row => WebsiteAnalysis.userId row = User.id u
  | awaitList userId => userId = User.id u
  | _ => True
  end ->
  user w' = Some u /\
  (db w' = db w \/
   exists row, db w' = db_create (db w) row /\ WebsiteAnalysis.userId row = User.id u) /\
  forall run', next = Some run' ->
    closure_user run' = Some u /\
    match pending run' with
    | awaitCreate _ row => WebsiteAnalysis.userId row = User.id u
    | awaitList userId => userId = User.id u
    | _ => True
    end.
Proof.
  unfold resume. intros Hres Hu Hc Hp. rewrite Hc in Hres.
  destruct (pending run) as [v|v scraped|v prompt|r row|userId] eqn:Hpend;
    destruct resp as [sc|shot|analysis| |];
    try (injection Hres as <- <-; cbn;
         split; [assumption|]; split; [now left|];
         intros run' [= <-]; cbn; rewrite ?Hpend; now auto).
  - destruct (createRow P clk (Some u) (assemble clk v analysis)) as [row|] eqn:Hrow;
      injection Hres as <- <-; cbn.
    + split; [assumption|]. split; [now left|].
      intros run' [= <-]. cbn. split; [reflexivity|].
      now destruct (createRow_Some _ _ _ _ _ Hrow) as (u' & _ & [= <-] & _ & _ & _ & ? & _).
    + split; [assumption|]. split; [now left|]. discriminate.
  - injection Hres as <- <-. cbn. split; [assumption|]. split.
    + right. eauto.
    + intros run' [= <-]. cbn. auto.
Qed.

Lemma steps_grow (P : Platform) (u : User.t) (store : Store) (evs : list Event) :
  forall sys,
    runsFor u sys -> grownFrom store u sys ->
    runsFor u (steps P evs sys) /\ grownFrom store u (steps P evs sys).
Proof.
  unfold steps.
  induction evs as [|ev evs IH]; intros sys Hruns Hgrown; cbn; [auto|].
  assert (Hstep : runsFor u (step P ev sys) /\ grownFrom store u (step P ev sys));
    [|destruct Hstep; now apply IH].
  clear IH. destruct sys as [w runs]. unfold runsFor, grownFrom, step in *.
  cbn [world inflight] in *. destruct Hruns as [Hu Hruns].
  assert (Hinvoke :
            (user (world (invoke P {| world := w; inflight := runs |})) = Some u /\
             forall run, In run (inflight (invoke P {| world := w; inflight := runs |})) ->
               closure_user run = Some u /\
               match pending run with
               | awaitCreate _ row => WebsiteAnalysis.userId row = User.id u
               | awaitList userId => userId = User.id u
               | _ => True
               end) /\
            exists added,
              db (world (invoke P {| world := w; inflight := runs |}))
              = (store ++ added)%list /\
              Forall (fun row => WebsiteAnalysis.userId row = User.id u) added).
  { unfold invoke. cbn [world inflight].
    destruct (start P w) as [w' [run|]] eqn:Hst; cbn [world inflight].
    - apply start_tracks in Hst.
      destruct Hst as (_ & _ & Hc & Hu' & Hdb & v & Hp).
      rewrite Hu', Hdb. split; [split; [exact Hu|]|exact Hgrown].
      intros run' Hin. apply in_app_iff in Hin. destruct Hin as [Hin|[<-|[]]].
      + now apply Hruns.
      + rewrite Hc, Hp. auto.
    - apply start_refused_frame in Hst. destruct Hst as [Hu' Hdb].
      rewrite Hu', Hdb. auto. }
  destruct ev as [value| | |index|k clk resp|resolved].
  - destruct (rendered w && negb (analyzing w)); cbn; auto.
  - destruct (rendered w && negb (analyzing w)); [exact Hinvoke|auto].
  - destruct (rendered w && negb (analyzing w || negb (truthy (trim (url w)))));
      [exact Hinvoke|auto].
  - destruct (rendered w); [|auto].
    destruct (nth_error (history w) index); cbn; auto.
  - destruct (nth_error runs k) as [run|] eqn:Hk; [|auto].
    apply nth_error_In in Hk. destruct (Hruns run Hk) as [Hc Hp].
    destruct (resume P clk run resp w) as [w' next] eqn:Hres.
    destruct (resume_runsFor P clk u run resp w w' next store Hres Hu Hc Hp)
      as (Hu' & Hdb & Hnext).
    cbn [world inflight]. split; [split; [exact Hu'|]|].
    + intros run' Hin. apply In_settle in Hin. destruct Hin as [Hin|Hin]; auto.
    + destruct Hgrown as (added & Hadded & Hall).
      destruct Hdb as [->|(row & -> & Hrow)]; [eauto|].
      exists (added ++ [row])%list. split.
      * unfold db_create. now rewrite Hadded, app_assoc.
      * apply Forall_app. auto.
  - rewrite Hu. destruct resolved; cbn; auto.
Qed.

(** X10.  Whatever the sequence of events, the store holds what it held
    at the start, in the same order, followed by rows of the signed-in
    user: the page writes rows of its user only and never removes or
    changes a row. *)
Theorem store_only_grows (P : Platform) (u : User.t) (store : Store)
  (history : list AnalysisResult.t) (evs : list Event) :
  let sys := steps P evs (initial u store history) in
  exists added,
    db (world sys) = (store ++ added)%list /\
    Forall (fun row => WebsiteAnalysis.userId row = User.id u) added.
Proof.
  apply (steps_grow P u store evs (initial u store history)).
  - split; [reflexivity|]. intros run [].
  - exists []. cbn. now rewrite app_nil_r.
Qed.

(** X11.  On an input that is not blank the Analyze button and the Enter
    key do the same.  On a blank input the button does nothing, while the
    Enter key of an idle page shows the invalid-URL notice. *)
Theorem enter_and_button (P : Platform) (sys : System) :
  (trim (url (world sys)) <> "" ->
   step P onClick_Analyze sys = step P onKeyPress_Enter sys) /\
  (trim (url (world sys)) = "" ->
   step P onClick_Analyze sys = sys /\
   (rendered (world sys) = true -> analyzing (world sys) = false ->
    step P onKeyPress_Enter sys
    = {| world := emit [toast_error "Please enter a valid URL"] (world sys);
         inflight := inflight sys |})).
Proof.
  unfold step. split.
  - intros Hne.
    assert (Ht : truthy (trim (url (world sys))) = true).
    { destruct (truthy (trim (url (world sys)))) eqn:E; [reflexivity|].
      apply truthy_false_iff in E. contradiction. }
    rewrite Ht. cbn [negb]. now rewrite orb_false_r.
  - intros Hblank.
    assert (Ht : truthy (trim (url (world sys))) = false) by now apply truthy_false_iff.
    rewrite Ht. cbn [negb]. rewrite orb_true_r. cbn [negb]. rewrite andb_false_r.
    split; [reflexivity|]. intros -> ->. cbn [negb andb].
    unfold invoke, start, validate. now rewrite Ht.
Qed.

(** The hypotheses of [enter_and_button] hold of a typed URL and of a
    blank input. *)
Lemma enter_and_button_witness :
  let sys := {| world := sample_world "example.com" []; inflight := [] |} in
  let blank := {| world := sample_world "  " []; inflight := [] |} in
  (trim (url (world sys)) <> "" /\
   step sample_platform onClick_Analyze sys = step sample_platform onKeyPress_Enter sys) /\
  (trim (url (world blank)) = "" /\ step sample_platform onClick_Analyze blank = blank).
Proof.
  split; split.
  - discriminate.
  - apply (proj1 (enter_and_button sample_platform
                    {| world := sample_world "example.com" []; inflight := [] |})).
    discriminate.
  - reflexivity.
  - apply (proj2 (enter_and_button sample_platform
                    {| world := sample_world "  " []; inflight := [] |})).
    reflexivity.
Defined.

(** ** Export and history loading *)



(** X18.  Loading the history leaves the store, the result and the input
    alone.  With no user it does nothing.  When the listing resolves, the
    history is replaced by the decoded rows the store returned: at most
    ten entries, each decoded from a row of the signed-in user, no notice
    shown; loading again gives the same history.  When the listing is
    rejected the history is kept and one notice is shown. *)
Theorem loadHistory_shows_the_store (P : Platform) (resolves : bool) (w : World) :
  let w' := loadHistory P resolves w in
  (db w' = db w /\ result w' = result w /\ user w' = user w /\ url w' = url w) /\
  (user w = None -> w' = w) /\
  (forall u, user w = Some u -> resolves = true ->
     history w' = parsedHistory P (db_list (db w) (User.id u) 10) /\
     (List.length (history w') <= 10)%nat /\
     (forall entry, In entry (history w') ->
        exists row, In row (db w) /\ WebsiteAnalysis.userId row = User.id u /\
                    entry = fst (parseItem P row)) /\
     toasts (log w') = toasts (log w) /\
     history (loadHistory P true w') = history w') /\
  (forall u, user w = Some u -> resolves = false ->
     history w' = history w /\
     toasts (log w')
     = (toasts (log w) ++ [toast_error "Failed to load analysis history"])%list).
Proof.
  unfold loadHistory.
  destruct (user w) as [u|] eqn:Hu.
  2:{ repeat split; auto; discriminate. }
  destruct resolves; cbn.
  - split; [repeat split; auto|]. split; [discriminate|]. split; [|discriminate].
    intros u' [= <-] _. rewrite Hu. cbn. repeat split.
    + unfold parsedHistory. rewrite length_map. apply db_list_length.
    + intros entry Hin. unfold parsedHistory in Hin. apply in_map_iff in Hin.
      destruct Hin as (row & <- & Hrow). apply db_list_In in Hrow.
      exists row. tauto.
    + now rewrite !toasts_app, parse_effects_silent, !app_nil_r.
  - split; [repeat split; auto|]. split; [discriminate|]. split; [discriminate|].
    intros u' [= <-] _. split; [reflexivity|].
    rewrite !toasts_app. cbn. now rewrite app_nil_r.
Qed.

(** The hypotheses of [loadHistory_shows_the_store] hold of a signed-in
    page over a store of two rows. *)
Lemma loadHistory_witness :
  let w := sample_world "" [sample_corrupt_row; sample_partial_row] in
  user w = Some sample_user /\
  (List.length (history (loadHistory sample_platform true w)) <= 10)%nat /\
  history (loadHistory sample_platform false w) = history w.
Proof.
  split; [reflexivity|]. split.
  - apply (proj1 (proj2 (proj2 (loadHistory_shows_the_store sample_platform true
       (sample_world "" [sample_corrupt_row; sample_partial_row])))) sample_user);
      reflexivity.
  - apply (proj2 (proj2 (proj2 (loadHistory_shows_the_store sample_platform false
       (sample_world "" [sample_corrupt_row; sample_partial_row])))) sample_user);
      reflexivity.
Defined.


